(** * merge_sessions.py: a shallow embedding and its verified properties

    The development follows src/merge_sessions.py function by function.
    Python values that come out of [json.loads] are modelled by the type
    [json]; a Python [dict] with string keys is an association list kept in
    insertion order; a [str] is a [string], its characters being the code
    points below 256; Python exceptions are the [Raise] branch of [result];
    the log directory, standard output and standard error are threaded
    through [merge_sessions] as an explicit [world].  The functions of the
    standard library that the program calls ([json.loads], [json.dumps],
    [datetime.fromisoformat]) are parameters of the program; [uuid.uuid4],
    the clock and the behaviour of the disk are given by an [env]. *)

From Stdlib Require Import ZArith List String Ascii Bool Lia Sorted Permutation.
From Stdlib Require Import Floats.SpecFloat.
Import ListNotations.
Open Scope string_scope.
Open Scope Z_scope.

(** ** Python values *)

#[local] Set Warnings "-register-all".

(** What [json.loads] can return.  A Python [float] is an IEEE binary64
    number, given by [spec_float] at precision 53. *)
Inductive json : Type :=
| JNull
| JBool (b : bool)
| JInt (n : Z)
| JFloat (x : spec_float)
| JStr (s : string)
| JList (l : list json)
| JDict (d : list (string * json)).

(** A [dict] object with string keys: the entries in insertion order. *)
Definition record : Type := list (string * json).

(** The exceptions the program can meet.  In Python [JSONDecodeError] is a
    subclass of [ValueError]; here [ValueError] stands for one that is no
    [JSONDecodeError], which a handler for [JSONDecodeError] lets pass. *)
Inductive exn : Type :=
| TypeError
| AttributeError
| OverflowError
| JSONDecodeError
| UnicodeDecodeError
| OSError
| RecursionError
| ValueError.

Inductive result (A : Type) : Type :=
| Ok (a : A)
| Raise (e : exn).
Arguments Ok {A} a.
Arguments Raise {A} e.

Definition rbind {A B : Type} (c : result A) (k : A -> result B) : result B :=
  match c with
  | Ok a => k a
  | Raise e => Raise e
  end.

(** [try: c  except Exception: h] *)
Definition try_except {A : Type} (c : result A) (h : exn -> result A) : result A :=
  match c with
  | Ok a => Ok a
  | Raise e => h e
  end.

Declare Scope result_scope.
Delimit Scope result_scope with result.
Notation "x <- c ;; k" := (rbind c (fun x => k))
  (at level 61, c at next level, right associativity) : result_scope.

(** [bool(v)]: the truth value Python gives a JSON value. *)
Definition truthy (v : json) : bool :=
  match v with
  | JNull => false
  | JBool b => b
  | JInt n => negb (n =? 0)
  | JFloat (S754_zero _) => false
  | JFloat _ => true
  | JStr s => negb (String.eqb s "")
  | JList l => match l with [] => false | _ => true end
  | JDict d => match d with [] => false | _ => true end
  end.

(** [v == s] for a string literal [s]: only a [str] equals a [str]. *)
Definition eq_str (v : option json) (s : string) : bool :=
  match v with
  | Some (JStr t) => String.eqb t s
  | _ => false
  end.

(** ** dict operations *)

(** [d.get(k)], [None] being the missing key. *)
Fixpoint dict_get (d : record) (k : string) : option json :=
  match d with
  | [] => None
  | (k', v) :: rest => if String.eqb k' k then Some v else dict_get rest k
  end.

(** [d.get(k, default)] *)
Definition dict_get_default (d : record) (k : string) (default : json) : json :=
  match dict_get d k with
  | Some v => v
  | None => default
  end.

(** [d[k] = v]: an existing key keeps its place, a new key goes last. *)
Fixpoint dict_set (d : record) (k : string) (v : json) : record :=
  match d with
  | [] => [(k, v)]
  | (k', v') :: rest =>
      if String.eqb k' k then (k, v) :: rest else (k', v') :: dict_set rest k v
  end.

(** [v.get]: only a [dict] has the method. *)
Definition as_dict (v : json) : result record :=
  match v with
  | JDict d => Ok d
  | _ => Raise AttributeError
  end.

(** ** str operations *)

Fixpoint starts_with (p s : string) : bool :=
  match p, s with
  | EmptyString, _ => true
  | String a p', String b s' => Ascii.eqb a b && starts_with p' s'
  | String _ _, EmptyString => false
  end.

(** [p in s] *)
Fixpoint contains (p s : string) : bool :=
  starts_with p s ||
  match s with
  | EmptyString => false
  | String _ s' => contains p s'
  end.

Fixpoint string_rev_onto (acc s : string) : string :=
  match s with
  | EmptyString => acc
  | String c s' => string_rev_onto (String c acc) s'
  end.

Definition string_rev (s : string) : string := string_rev_onto EmptyString s.

Definition ends_with (p s : string) : bool :=
  starts_with (string_rev p) (string_rev s).

(** [s.replace(old, new)] for a non-empty [old]: every occurrence, left to
    right, without overlap.  [skip] counts the characters of a matched
    occurrence still to be passed over. *)
Fixpoint replace_from (old new : string) (skip : nat) (s : string) : string :=
  match s with
  | EmptyString => EmptyString
  | String c s' =>
      match skip with
      | S n => replace_from old new n s'
      | O =>
          if starts_with old s
          then new ++ replace_from old new (Nat.pred (String.length old)) s'
          else String c (replace_from old new O s')
      end
  end.

Definition str_replace (old new s : string) : string := replace_from old new O s.

(** The characters [str.strip()] removes, among the code points below 256:
    tab, line feed, vertical tab, form feed, carriage return, the four
    separators 28 to 31, the space, the next-line character 133 and the
    no-break space 160. *)
Definition is_space (c : ascii) : bool :=
  let n := nat_of_ascii c in
  ((9 <=? n) && (n <=? 13) || (28 <=? n) && (n <=? 32)
   || (n =? 133) || (n =? 160))%nat.

Fixpoint lstrip (s : string) : string :=
  match s with
  | EmptyString => EmptyString
  | String c s' => if is_space c then lstrip s' else s
  end.

(** [s.strip()] *)
Definition strip (s : string) : string :=
  string_rev (lstrip (string_rev (lstrip s))).

(** The lines that iterating over a text file yields (the text being what
    the file decodes to, line ends already translated to line feeds): each
    line keeps its terminating line feed, a last line without one is yielded
    as it is. *)
Fixpoint lines_from (cur s : string) : list string :=
  match s with
  | EmptyString => if String.eqb cur "" then [] else [string_rev cur]
  | String c s' =>
      if Ascii.eqb c "010"%char
      then string_rev (String c cur) :: lines_from EmptyString s'
      else lines_from (String c cur) s'
  end.

Definition splitlines (s : string) : list string := lines_from EmptyString s.

(** The lines of [s] that end in a line feed. *)
Definition complete_lines (s : string) : list string :=
  filter (ends_with (String "010"%char EmptyString)) (splitlines s).

(** ** datetime *)

(** A [datetime] object: its calendar fields and, when it is aware, its
    offset from UTC in microseconds.  [tzoffset = None] is a naive value. *)
Record datetime : Type := mk_datetime {
  year : Z; month : Z; day : Z;
  hour : Z; minute : Z; second : Z; microsecond : Z;
  tzoffset : option Z
}.

(** [datetime.min.replace(tzinfo=timezone.utc)] *)
Definition datetime_min_utc : datetime := mk_datetime 1 1 1 0 0 0 0 (Some 0).

Definition is_leap (y : Z) : bool :=
  (y mod 4 =? 0) && (negb (y mod 100 =? 0) || (y mod 400 =? 0)).

Definition days_before_year (y : Z) : Z :=
  let p := y - 1 in p * 365 + p / 4 - p / 100 + p / 400.

Definition days_in_month (y m : Z) : Z :=
  if m =? 2 then (if is_leap y then 29 else 28)
  else if (m =? 4) || (m =? 6) || (m =? 9) || (m =? 11) then 30 else 31.

Fixpoint days_before_month_from (y : Z) (n : nat) (m : Z) : Z :=
  match n with
  | O => 0
  | S n' => days_in_month y (m - 1) + days_before_month_from y n' (m - 1)
  end.

(** Days of the year [y] before the first of month [m]. *)
Definition days_before_month (y m : Z) : Z :=
  days_before_month_from y (Z.to_nat (m - 1)) m.

(** [date.toordinal()]: 1 for 0001-01-01. *)
Definition toordinal (d : datetime) : Z :=
  days_before_year (year d) + days_before_month (year d) (month d) + day d.

(** The calendar fields as microseconds since 0001-01-01T00:00:00. *)
Definition wall_micros (d : datetime) : Z :=
  ((((toordinal d - 1) * 24 + hour d) * 60 + minute d) * 60 + second d) * 1000000
  + microsecond d.

Definition aware (d : datetime) : bool :=
  match tzoffset d with Some _ => true | None => false end.

(** The number two datetimes of the same kind are compared by: the UTC
    instant of an aware value, the calendar fields of a naive one. *)
Definition instant (d : datetime) : Z :=
  match tzoffset d with
  | Some off => wall_micros d - off
  | None => wall_micros d
  end.

(** [a < b]: comparing a naive with an aware datetime raises. *)
Definition datetime_lt (a b : datetime) : result bool :=
  if Bool.eqb (aware a) (aware b) then Ok (instant a <? instant b)
  else Raise TypeError.

(** ** Numbers *)

(** The value of a running total: an [int] or a [float]. *)
Inductive pynum : Type :=
| PInt (n : Z)
| PFloat (x : spec_float).

Definition float_add (x y : spec_float) : spec_float := SFadd 53 1024 x y.

(** [float(n)] for an [int]: the nearest binary64 number, ties to even;
    an [int] beyond the range raises. *)
Definition float_of_int (n : Z) : result spec_float :=
  match binary_normalize 53 1024 n 0 false with
  | S754_infinity _ => Raise OverflowError
  | x => Ok x
  end.

(** [acc + v] for a running total [acc] and a JSON value [v], as [+=]
    computes it: [bool] counts as the [int] 0 or 1, an [int] meets a
    [float] as a [float], and anything else is no number. *)
Definition py_add (acc : pynum) (v : json) : result pynum :=
  let add_int (n : Z) :=
    match acc with
    | PInt a => Ok (PInt (a + n))
    | PFloat x => (y <- float_of_int n ;; Ok (PFloat (float_add x y)))%result
    end in
  match v with
  | JInt n => add_int n
  | JBool b => add_int (if b then 1 else 0)
  | JFloat y =>
      match acc with
      | PInt a => (x <- float_of_int a ;; Ok (PFloat (float_add x y)))%result
      | PFloat x => Ok (PFloat (float_add x y))
      end
  | _ => Raise TypeError
  end.

Definition pynum_json (n : pynum) : json :=
  match n with
  | PInt z => JInt z
  | PFloat x => JFloat x
  end.

(** ** The log directory and the process environment *)

(** What opening and reading a directory entry does. *)
Inductive file : Type :=
| Text (content : string)
    (** a readable file that decodes to [content] *)
| Corrupt (content : string)
    (** a file that opens, yields the complete lines of [content] and then
        fails to decode or to read: the file object reads and decodes a
        chunk at a time, so bytes that are no UTF-8, or a device error,
        beyond the first chunk are met after the lines before them were
        handed out *)
| Denied.
    (** an entry [open] refuses: no permission, a directory *)

(** The entries of the log directory, in the order a scan lists them. *)
Definition dir : Type := list (string * file).

Fixpoint dir_lookup (d : dir) (name : string) : option file :=
  match d with
  | [] => None
  | (n, f) :: rest => if String.eqb n name then Some f else dir_lookup rest name
  end.

(** Creating or truncating the entry [name]. *)
Fixpoint dir_put (d : dir) (name : string) (f : file) : dir :=
  match d with
  | [] => [(name, f)]
  | (n, g) :: rest =>
      if String.eqb n name then (name, f) :: rest else (n, g) :: dir_put rest name f
  end.

(** What the program prints. *)
Inductive message : Type :=
| Warning_reading (path : string) (e : exn)
    (** on stderr: Warning: Error reading <path>: <e> *)
| Found_files (n : nat)
    (** on stdout: Found <n> session file(s). No merge needed. *)
| Created_file (name : string).
    (** on stdout: Created merged session file: <name> *)

(** How the operating system treats the output file. *)
Inductive disk : Type :=
| Disk_ok
    (** [open] and every [write] succeed *)
| Open_fails
    (** [open(..., 'w')] raises *)
| Write_fails_after (n : nat).
    (** [open] succeeds and what the first [n] calls of [write] hand over
        reaches the file (the buffer of the file object is left out); the
        next call, or closing the file, raises *)

(** What the process takes from outside: the identifier [uuid.uuid4()]
    draws, the three readings of the clock in ISO format, and the state of
    the disk when the output is written. *)
Record env : Type := mk_env {
  uuid4 : string;
  now_start : string;
  now_summary : string;
  now_end : string;
  output_disk : disk
}.

(** The state the program acts on. *)
Record world : Type := mk_world {
  logs : dir;
  printed : list message
}.

(** A computation that reads and changes the world and may raise. *)
Definition M (A : Type) : Type := world -> result A * world.

Definition ret {A : Type} (a : A) : M A := fun w => (Ok a, w).

Definition bind {A B : Type} (c : M A) (k : A -> M B) : M B :=
  fun w =>
    match c w with
    | (Ok a, w') => k a w'
    | (Raise e, w') => (Raise e, w')
    end.

Definition lift {A : Type} (r : result A) : M A := fun w => (r, w).

Definition print (m : message) : M unit :=
  fun w => (Ok tt, mk_world (logs w) (printed w ++ [m])).

Declare Scope M_scope.
Delimit Scope M_scope with M.
Notation "x <- c ;; k" := (bind c (fun x => k))
  (at level 61, c at next level, right associativity) : M_scope.

(** ** Sorting *)

Section Sort.
Context {A : Type}.
Variable key : A -> datetime.

(** [x] enters a sorted list after the elements that are smaller and
    before the first that is not. *)
Fixpoint insert_by (x : A) (l : list A) : list A :=
  match l with
  | [] => [x]
  | y :: l' =>
      if instant (key y) <? instant (key x) then y :: insert_by x l' else x :: l
  end.

(** The result of a stable sort by [key]. *)
Definition stable_sort (l : list A) : list A := fold_right insert_by [] l.

(** The keys of the list can be compared with each other: they are all
    aware or all naive. *)
Definition comparable (l : list A) : bool :=
  forallb (fun x => aware (key x)) l || forallb (fun x => negb (aware (key x))) l.

(** [l.sort(key=key)].  The sort is stable, so the list it leaves is the
    one that insertion builds: the keys decide it.  A sort can only order a
    list that holds a naive and an aware key by comparing one with the
    other, and that comparison raises. *)
Definition sort_by_key (l : list A) : result (list A) :=
  if comparable l then Ok (stable_sort l) else Raise TypeError.
End Sort.

(** ** The program *)

Record session_data : Type := mk_session_data {
  session_start : option record;
  session_end : option record;
  session_summary : option record;
  messages : list record;
  other_events : list record
}.

Record totals : Type := mk_totals {
  total_duration_seconds : pynum;
  total_messages : pynum;
  assistant_messages : pynum;
  user_prompts : pynum;
  total_input_tokens : pynum;
  total_output_tokens : pynum
}.

(** The [totals] dict as [aggregate_summaries] lays it out. *)
Definition totals_json (t : totals) : json :=
  JDict [ ("total_duration_seconds", pynum_json (total_duration_seconds t));
          ("total_messages", pynum_json (total_messages t));
          ("assistant_messages", pynum_json (assistant_messages t));
          ("user_prompts", pynum_json (user_prompts t));
          ("usage_totals",
            JDict [ ("total_input_tokens", pynum_json (total_input_tokens t));
                    ("total_output_tokens", pynum_json (total_output_tokens t)) ]) ].

(** The pattern [session_*.jsonl] of the directory scan, letter case
    being told apart. *)
Definition glob_match (name : string) : bool :=
  starts_with "session_" name && ends_with ".jsonl" name
  && (14 <=? String.length name)%nat.

(** [f.stem] of a name that ends in [.jsonl]. *)
Definition stem (name : string) : string :=
  substring 0 (String.length name - 6) name.

(** What [open(filepath, 'r')] and the iteration over the file give: the
    lines read, and the exception that ends the reading early if there is
    one. *)
Definition read_lines (d : dir) (filepath : string) : list string * option exn :=
  match dir_lookup d filepath with
  | Some (Text content) => (splitlines content, None)
  | Some (Corrupt content) => (complete_lines content, Some UnicodeDecodeError)
  | Some Denied | None => ([], Some OSError)
  end.

Section Program.

(** The library functions the program calls.  [json_loads s] is what
    [json.loads(s)] does: it returns a value, raises [JSONDecodeError] on a
    text that is no JSON, or raises another exception on a text beyond its
    limits ([RecursionError] for arrays or objects nested too deep,
    [ValueError] for an integer of too many digits).  [fromisoformat s] is
    [None] where [datetime.fromisoformat(s)] raises [ValueError];
    [json.dumps] is taken to succeed on every value that [json.loads]
    returned. *)
Variable json_loads : string -> result json.
Variable json_dumps : json -> string.
Variable fromisoformat : string -> option datetime.

(** [parse_timestamp(ts)], for whatever value the caller read from the
    record.  A value that is not a [str] has no [replace] method, and the
    [except] clause answers for it. *)
Definition parse_timestamp (ts : json) : datetime :=
  if negb (truthy ts) then datetime_min_utc
  else
    match ts with
    | JStr s =>
        match fromisoformat (str_replace "Z" "+00:00" s) with
        | Some t => t
        | None => datetime_min_utc
        end
    | _ => datetime_min_utc
    end.

(** The loop of [get_start_time]; [Ok (Some t)] is [return t], and
    [failure] is the exception that follows the last line read. *)
Fixpoint first_session_start (lines : list string) (failure : option exn)
  : result (option datetime) :=
  match lines with
  | [] =>
      match failure with
      | Some e => Raise e
      | None => Ok None
      end
  | line :: rest =>
      (event <- json_loads (strip line) ;;
       ev <- as_dict event ;;
       if eq_str (dict_get ev "type") "session_start"
       then Ok (Some (parse_timestamp (dict_get_default ev "timestamp" (JStr ""))))
       else first_session_start rest failure)%result
  end.

Definition get_start_time (d : dir) (filepath : string) : datetime :=
  let '(lines, failure) := read_lines d filepath in
  match try_except (first_session_start lines failure) (fun _ => Ok None) with
  | Ok (Some t) => t
  | _ => datetime_min_utc
  end.

Definition is_raw (name : string) : bool := contains "_raw.jsonl" name.

Definition raw_name (sid : string) : string := "session_" ++ sid ++ "_raw.jsonl".

Definition exists_in (d : dir) (name : string) : bool :=
  match dir_lookup d name with
  | Some _ => true
  | None => false
  end.

Definition find_session_files (d : dir) : result (list string * list string) :=
  let found := filter glob_match (map fst d) in
  let raw_files := filter is_raw found in
  let processed_files := filter (fun f => negb (is_raw f)) found in
  (processed_files <- sort_by_key (get_start_time d) processed_files ;;
   let processed_ids :=
     map (fun f => str_replace "session_" "" (stem f)) processed_files in
   let raw_files_sorted :=
     filter (exists_in d) (map raw_name processed_ids) in
   Ok (processed_files, raw_files_sorted))%result.

(** The loop of [read_session_events]: the events gathered when the
    reading ends, and the exception that ended it if there is one.  The
    inner handler is for [JSONDecodeError] alone; any other exception of
    [json.loads] leaves the loop for the outer handler. *)
Fixpoint read_events (lines : list string) (failure : option exn)
  (events : list json) : list json * option exn :=
  match lines with
  | [] => (events, failure)
  | line :: rest =>
      let line := strip line in
      if negb (String.eqb line "")
      then
        match json_loads line with
        | Ok v => read_events rest failure (events ++ [v])
        | Raise JSONDecodeError => read_events rest failure events
        | Raise e => (events, Some e)
        end
      else read_events rest failure events
  end.

Definition read_session_events (filepath : string) : M (list json) :=
  fun w =>
    let '(lines, failure) := read_lines (logs w) filepath in
    let '(events, raised) := read_events lines failure [] in
    match raised with
    | Some e => (_ <- print (Warning_reading filepath e) ;; ret events)%M w
    | None => ret events w
    end.

(** One turn of the loop of [extract_session_data]. *)
Definition classify (data : session_data) (event : json) : result session_data :=
  (ev <- as_dict event ;;
   let event_type := dict_get ev "type" in
   if eq_str event_type "session_start" then
     Ok (mk_session_data (Some ev) (session_end data) (session_summary data)
           (messages data) (other_events data))
   else if eq_str event_type "session_end" then
     Ok (mk_session_data (session_start data) (Some ev) (session_summary data)
           (messages data) (other_events data))
   else if eq_str event_type "session_summary" then
     Ok (mk_session_data (session_start data) (session_end data) (Some ev)
           (messages data) (other_events data))
   else if eq_str event_type "user" || eq_str event_type "assistant"
           || eq_str event_type "assistant_thinking" then
     Ok (mk_session_data (session_start data) (session_end data) (session_summary data)
           (messages data ++ [ev]) (other_events data))
   else
     Ok (mk_session_data (session_start data) (session_end data) (session_summary data)
           (messages data) (other_events data ++ [ev])))%result.

Fixpoint classify_all (data : session_data) (events : list json) : result session_data :=
  match events with
  | [] => Ok data
  | event :: rest => (data' <- classify data event ;; classify_all data' rest)%result
  end.

Definition extract_session_data (events : list json) : result session_data :=
  classify_all (mk_session_data None None None [] []) events.

(** One turn of the loop of [aggregate_summaries]. *)
Definition add_summary (t : totals) (summary : record) : result totals :=
  (sd <- as_dict (dict_get_default summary "summary_data" (JDict [])) ;;
   duration <- py_add (total_duration_seconds t)
                 (dict_get_default sd "total_duration_seconds" (JInt 0)) ;;
   msgs <- py_add (total_messages t) (dict_get_default sd "total_messages" (JInt 0)) ;;
   assistant <- py_add (assistant_messages t)
                  (dict_get_default sd "assistant_messages" (JInt 0)) ;;
   prompts <- py_add (user_prompts t) (dict_get_default sd "user_prompts" (JInt 0)) ;;
   ut <- as_dict (dict_get_default sd "usage_totals" (JDict [])) ;;
   input <- py_add (total_input_tokens t)
              (dict_get_default ut "total_input_tokens" (JInt 0)) ;;
   output <- py_add (total_output_tokens t)
               (dict_get_default ut "total_output_tokens" (JInt 0)) ;;
   Ok (mk_totals duration msgs assistant prompts input output))%result.

Fixpoint add_summaries (t : totals) (summaries : list record) : result totals :=
  match summaries with
  | [] => Ok t
  | summary :: rest => (t' <- add_summary t summary ;; add_summaries t' rest)%result
  end.

Definition zero_totals : totals :=
  mk_totals (PInt 0) (PInt 0) (PInt 0) (PInt 0) (PInt 0) (PInt 0).

Definition aggregate_summaries (summaries : list record) : result totals :=
  add_summaries zero_totals summaries.

(** The first loop of [merge_sessions]: every primary file is read and
    classified, in the order discovered. *)
Fixpoint read_all (files : list string) : M (list session_data) :=
  match files with
  | [] => ret []
  | pf :: rest =>
      (events <- read_session_events pf ;;
       session_data <- lift (extract_session_data events) ;;
       all_session_data <- read_all rest ;;
       ret (session_data :: all_session_data))%M
  end.

(** [msg_copy = msg.copy(); msg_copy['session_id'] = merged_session_id],
    as a value. *)
Definition stamp (merged_session_id : string) (msg : record) : record :=
  dict_set msg "session_id" (JStr merged_session_id).

(** [all_messages] before it is sorted. *)
Definition collect_messages (merged_session_id : string)
  (all_session_data : list session_data) : list record :=
  flat_map (fun sd => map (stamp merged_session_id) (messages sd)) all_session_data.

(** The sort key [lambda m: parse_timestamp(m.get('timestamp', ''))]. *)
Definition message_key (m : record) : datetime :=
  parse_timestamp (dict_get_default m "timestamp" (JStr "")).

(** [[sd['session_summary'] for sd in all_session_data
      if sd.get('session_summary')]] *)
Definition all_summaries (all_session_data : list session_data) : list record :=
  flat_map (fun sd =>
              match session_summary sd with
              | Some summary => if truthy (JDict summary) then [summary] else []
              | None => []
              end) all_session_data.

Definition merged_start (e : env) : record :=
  [ ("type", JStr "session_start");
    ("timestamp", JStr (now_start e));
    ("session_id", JStr (uuid4 e)) ].

Definition merged_summary (e : env) (aggregated_data : totals) : record :=
  [ ("type", JStr "session_summary");
    ("timestamp", JStr (now_summary e));
    ("session_id", JStr (uuid4 e));
    ("summary_data", totals_json aggregated_data) ].

Definition merged_end (e : env) : record :=
  [ ("type", JStr "session_end");
    ("timestamp", JStr (now_end e));
    ("session_id", JStr (uuid4 e)) ].

(** [json.dumps(r) + '\n'] *)
Definition output_line (r : record) : string :=
  json_dumps (JDict r) ++ String "010"%char EmptyString.

(** The [with open(output_processed, 'w')] block, [lines] being the
    arguments of its calls of [write], in order. *)
Definition write_lines (dk : disk) (name : string) (lines : list string) : M unit :=
  fun w =>
    match dk with
    | Disk_ok =>
        (Ok tt, mk_world (dir_put (logs w) name (Text (String.concat "" lines)))
                  (printed w))
    | Open_fails => (Raise OSError, w)
    | Write_fails_after n =>
        (Raise OSError,
         mk_world (dir_put (logs w) name (Text (String.concat "" (firstn n lines))))
           (printed w))
    end.

Definition get_logs : M dir := fun w => (Ok (logs w), w).

Definition merge_sessions (e : env) : M bool :=
  (d <- get_logs ;;
   found <- lift (find_session_files d) ;;
   let processed_files := fst found in
   if (List.length processed_files <? 2)%nat then
     _ <- print (Found_files (List.length processed_files)) ;;
     ret false
   else
     all_session_data <- read_all processed_files ;;
     let merged_session_id := uuid4 e in
     let output_prefix := "session_" ++ merged_session_id in
     all_messages <- lift (sort_by_key message_key
                             (collect_messages merged_session_id all_session_data)) ;;
     aggregated_data <- lift (aggregate_summaries (all_summaries all_session_data)) ;;
     let output_processed := output_prefix ++ ".jsonl" in
     _ <- write_lines (output_disk e) output_processed
            (map output_line
               (merged_start e :: all_messages
                  ++ [merged_summary e aggregated_data; merged_end e])) ;;
     _ <- print (Created_file output_processed) ;;
     ret true)%M.

End Program.

(** ** The objects behind the message records

    [merge_sessions] copies each message before it writes the merged
    identifier into it.  To say what that does to the original, the [dict]
    objects are kept in a store, a record being known by its address.  The
    copy is shallow; the values inside a record are shared with the
    original, and the program changes none of them. *)

Definition heap : Type := list record.
Definition addr : Type := nat.

Definition deref (h : heap) (a : addr) : option record := nth_error h a.

(** [msg.copy()]: a new object with the entries of the old one. *)
Definition heap_copy (h : heap) (a : addr) : heap * addr :=
  ((h ++ [nth a h []])%list, List.length h).

(** [obj[k] = v] on the object at [a]. *)
Fixpoint heap_setitem (h : heap) (a : addr) (k : string) (v : json) : heap :=
  match h, a with
  | [], _ => []
  | r :: h', O => dict_set r k v :: h'
  | r :: h', S a' => r :: heap_setitem h' a' k v
  end.

(** [for msg in sd['messages']: ...], lines 146 to 149. *)
Fixpoint stamp_messages (merged_session_id : string) (msgs : list addr)
  (h : heap) (all_messages : list addr) : heap * list addr :=
  match msgs with
  | [] => (h, all_messages)
  | msg :: rest =>
      let '(h1, msg_copy) := heap_copy h msg in
      let h2 := heap_setitem h1 msg_copy "session_id" (JStr merged_session_id) in
      stamp_messages merged_session_id rest h2 (all_messages ++ [msg_copy])%list
  end.

(** [for sd in all_session_data: ...], lines 145 to 149; a fragment is
    given by the addresses of its messages. *)
Fixpoint stamp_fragments (merged_session_id : string) (fragments : list (list addr))
  (h : heap) (all_messages : list addr) : heap * list addr :=
  match fragments with
  | [] => (h, all_messages)
  | msgs :: rest =>
      let '(h1, all1) := stamp_messages merged_session_id msgs h all_messages in
      stamp_fragments merged_session_id rest h1 all1
  end.

(** ** What the classifier is expected to compute *)

Definition has_type (s : string) (ev : record) : bool :=
  eq_str (dict_get ev "type") s.

Definition is_message (ev : record) : bool :=
  has_type "user" ev || has_type "assistant" ev || has_type "assistant_thinking" ev.

Definition is_lifecycle (ev : record) : bool :=
  has_type "session_start" ev || has_type "session_end" ev
  || has_type "session_summary" ev.

Definition is_other (ev : record) : bool :=
  negb (is_lifecycle ev) && negb (is_message ev).

(** The last element of [l] that satisfies [p]. *)
Definition last_where {A : Type} (p : A -> bool) (l : list A) : option A :=
  List.last (map Some (filter p l)) None.

(** ** What the aggregator is expected to compute *)

(** The integer a summary gives for [field] of its statistics, 0 when the
    field or the statistics are missing. *)
Definition int_field (field : string) (d : record) : Z :=
  match dict_get d field with
  | Some (JInt n) => n
  | _ => 0
  end.

Definition summary_data_of (summary : record) : record :=
  match dict_get summary "summary_data" with
  | Some (JDict sd) => sd
  | _ => []
  end.

Definition usage_totals_of (summary : record) : record :=
  match dict_get (summary_data_of summary) "usage_totals" with
  | Some (JDict ut) => ut
  | _ => []
  end.

Definition sum_of (f : record -> Z) (summaries : list record) : Z :=
  fold_right (fun s acc => f s + acc) 0 summaries.

(** A field that is present holds an [int]. *)
Definition int_or_missing (field : string) (d : record) : bool :=
  match dict_get d field with
  | Some (JInt _) | None => true
  | Some _ => false
  end.

(** A nested mapping that is present is a [dict]. *)
Definition dict_or_missing (field : string) (d : record) : bool :=
  match dict_get d field with
  | Some (JDict _) | None => true
  | Some _ => false
  end.

(** A summary record whose statistics are integers where they are given. *)
Definition integer_summary (summary : record) : bool :=
  dict_or_missing "summary_data" summary
  && int_or_missing "total_duration_seconds" (summary_data_of summary)
  && int_or_missing "total_messages" (summary_data_of summary)
  && int_or_missing "assistant_messages" (summary_data_of summary)
  && int_or_missing "user_prompts" (summary_data_of summary)
  && dict_or_missing "usage_totals" (summary_data_of summary)
  && int_or_missing "total_input_tokens" (usage_totals_of summary)
  && int_or_missing "total_output_tokens" (usage_totals_of summary).

(** The integer a statistic adds to an integer total: the integer itself,
    0 or 1 for [false] or [true], which [+=] adds as the [int] they are,
    and 0 when the field is missing. *)
Definition count_field (field : string) (d : record) : Z :=
  match dict_get d field with
  | Some (JInt n) => n
  | Some (JBool b) => if b then 1 else 0
  | _ => 0
  end.

(** A field that is present holds an [int] or a [bool]. *)
Definition count_or_missing (field : string) (d : record) : bool :=
  match dict_get d field with
  | Some (JInt _) | Some (JBool _) | None => true
  | Some _ => false
  end.

(** A summary record whose statistics are counted exactly: the two
    mappings are objects and the six numbers integers, where given. *)
Definition counted_summary (summary : record) : bool :=
  dict_or_missing "summary_data" summary
  && count_or_missing "total_duration_seconds" (summary_data_of summary)
  && count_or_missing "total_messages" (summary_data_of summary)
  && count_or_missing "assistant_messages" (summary_data_of summary)
  && count_or_missing "user_prompts" (summary_data_of summary)
  && dict_or_missing "usage_totals" (summary_data_of summary)
  && count_or_missing "total_input_tokens" (usage_totals_of summary)
  && count_or_missing "total_output_tokens" (usage_totals_of summary).

Definition is_int (n : pynum) : bool :=
  match n with
  | PInt _ => true
  | PFloat _ => false
  end.

(** Totals that are all of the type [int]. *)
Definition integer_totals (t : totals) : bool :=
  is_int (total_duration_seconds t) && is_int (total_messages t)
  && is_int (assistant_messages t) && is_int (user_prompts t)
  && is_int (total_input_tokens t) && is_int (total_output_tokens t).

(** The sum of [f] over the summary records of the fragments; a fragment
    without a summary record adds nothing. *)
Definition over_fragments (f : record -> Z) (all_session_data : list session_data) : Z :=
  fold_right (fun sd acc =>
                match session_summary sd with
                | Some summary => f summary + acc
                | None => acc
                end) 0 all_session_data.

(** ** What one fragment contributes *)

Definition is_dict (v : json) : bool :=
  match v with
  | JDict _ => true
  | _ => false
  end.

(** The records among the values read from a file. *)
Definition records_of (events : list json) : list record :=
  flat_map (fun v => match v with JDict r => [r] | _ => [] end) events.

(** The five parts of a fragment, each said on its own. *)
Definition classified (events : list record) : session_data :=
  mk_session_data
    (last_where (has_type "session_start") events)
    (last_where (has_type "session_end") events)
    (last_where (has_type "session_summary") events)
    (filter is_message events)
    (filter is_other events).

Section Reading.
Variable json_loads : string -> result json.

(** What the reader does with one line: it passes over it (a blank line,
    a line that is no JSON), takes its value, or stops at it. *)
Inductive line_outcome : Type :=
| Skipped
| Value (v : json)
| Stops (e : exn).

Definition parse_line (line : string) : line_outcome :=
  let line := strip line in
  if String.eqb line "" then Skipped
  else
    match json_loads line with
    | Ok v => Value v
    | Raise JSONDecodeError => Skipped
    | Raise e => Stops e
    end.

(** The events of a list of lines: the values of the lines before the
    first line that stops the reader. *)
Fixpoint events_from (lines : list string) : list json :=
  match lines with
  | [] => []
  | line :: rest =>
      match parse_line line with
      | Skipped => events_from rest
      | Value v => v :: events_from rest
      | Stops _ => []
      end
  end.

(** The exception that ends the reading of a list of lines: that of the
    first line that stops the reader, or else [failure], the one that
    follows the last line. *)
Fixpoint failure_from (lines : list string) (failure : option exn) : option exn :=
  match lines with
  | [] => failure
  | line :: rest =>
      match parse_line line with
      | Stops e => Some e
      | _ => failure_from rest failure
      end
  end.

(** The events a file yields. *)
Definition events_of (d : dir) (filepath : string) : list json :=
  events_from (fst (read_lines d filepath)).

Definition fragment (d : dir) (filepath : string) : session_data :=
  classified (records_of (events_of d filepath)).

(** The warning [read_session_events] prints for a file, if any. *)
Definition warning_of (d : dir) (filepath : string) : list message :=
  match failure_from (fst (read_lines d filepath)) (snd (read_lines d filepath)) with
  | Some e => [Warning_reading filepath e]
  | None => []
  end.
End Reading.

(** The primary files of a directory, in the order the scan lists them. *)
Definition primary_files (d : dir) : list string :=
  filter (fun f => negb (is_raw f)) (filter glob_match (map fst d)).

Definition output_name (e : env) : string := ("session_" ++ uuid4 e) ++ ".jsonl".

(** The records of the merged file. *)
Definition output_records (e : env) (msgs : list record) (t : totals) : list record :=
  merged_start e :: msgs ++ [merged_summary e t; merged_end e].

Definition output_text (json_dumps : json -> string) (records : list record) : string :=
  String.concat "" (map (output_line json_dumps) records).

(** ** Library functions for the examples

    [json.loads], [json.dumps] and [datetime.fromisoformat] are parameters
    of the program above.  The examples below run it with the functions of
    this module, which do what the library does on the texts the examples
    use: [dumps] writes a value without floats and without characters to
    escape the way [json.dumps] does, [loads] reads back the lines [dumps]
    wrote for the values of a given corpus and gives up on a line nested
    beyond every limit, and [fromisoformat] reads
    [YYYY-MM-DDTHH:MM:SS] with or without an offset [+HH:MM]. *)
Module Sample.

Definition quote : string := String "034"%char EmptyString.

Fixpoint digits (fuel : nat) (n : Z) (acc : string) : string :=
  match fuel with
  | O => acc
  | S fuel' =>
      let acc' := String (ascii_of_nat (48 + Z.to_nat (n mod 10))) acc in
      if n <? 10 then acc' else digits fuel' (n / 10) acc'
  end.

Definition decimal (n : Z) : string :=
  if n <? 0 then "-" ++ digits (Z.to_nat (Z.log2 (- n) + 1)) (- n) ""
  else digits (Z.to_nat (Z.log2 n + 1)) n "".

Fixpoint dumps (v : json) : string :=
  match v with
  | JNull => "null"
  | JBool true => "true"
  | JBool false => "false"
  | JInt n => decimal n
  | JFloat _ => "NaN"
  | JStr s => quote ++ s ++ quote
  | JList l =>
      "[" ++ (fix items (l : list json) : string :=
                match l with
                | [] => ""
                | [x] => dumps x
                | x :: l' => dumps x ++ ", " ++ items l'
                end) l ++ "]"
  | JDict d =>
      "{" ++ (fix entries (d : list (string * json)) : string :=
                match d with
                | [] => ""
                | [(k, x)] => quote ++ k ++ quote ++ ": " ++ dumps x
                | (k, x) :: d' =>
                    quote ++ k ++ quote ++ ": " ++ dumps x ++ ", " ++ entries d'
                end) d ++ "}"
  end.

(** The number of opening square brackets a text begins with. *)
Fixpoint opening_brackets (s : string) : N :=
  match s with
  | String c s' => if Ascii.eqb c "["%char then N.succ (opening_brackets s') else 0%N
  | EmptyString => 0%N
  end.

(** [json.loads] on the lines that [dumps] writes for the values of
    [corpus], and on a line that opens a hundred thousand arrays one inside
    the other, far beyond the default recursion limit of 1000; any other
    line is taken not to parse. *)
Definition loads (corpus : list json) (s : string) : result json :=
  if (100000 <=? opening_brackets s)%N then Raise RecursionError
  else
    match find (fun v => String.eqb (dumps v) s) corpus with
    | Some v => Ok v
    | None => Raise JSONDecodeError
    end.

Definition digit (c : ascii) : option Z :=
  let n := Z.of_nat (nat_of_ascii c) in
  if (48 <=? n) && (n <=? 57) then Some (n - 48) else None.

Definition two (a b : ascii) : option Z :=
  match digit a, digit b with
  | Some x, Some y => Some (10 * x + y)
  | _, _ => None
  end.

Definition four (a b c d : ascii) : option Z :=
  match two a b, two c d with
  | Some x, Some y => Some (100 * x + y)
  | _, _ => None
  end.

Definition offset_of (rest : list ascii) : option (option Z) :=
  match rest with
  | [] => Some None
  | [sign; h1; h2; colon; m1; m2] =>
      match two h1 h2, two m1 m2 with
      | Some h, Some m =>
          if Ascii.eqb colon ":" && (h <? 24) && (m <? 60) then
            let off := (h * 60 + m) * 60 * 1000000 in
            if Ascii.eqb sign "+" then Some (Some off)
            else if Ascii.eqb sign "-" then Some (Some (- off))
            else None
          else None
      | _, _ => None
      end
  | _ => None
  end.

Definition fromisoformat (s : string) : option datetime :=
  match list_ascii_of_string s with
  | y1 :: y2 :: y3 :: y4 :: c1 :: mo1 :: mo2 :: c2 :: d1 :: d2 :: t
      :: h1 :: h2 :: c3 :: mi1 :: mi2 :: c4 :: s1 :: s2 :: rest =>
      match four y1 y2 y3 y4, two mo1 mo2, two d1 d2,
            two h1 h2, two mi1 mi2, two s1 s2, offset_of rest with
      | Some y, Some mo, Some d, Some h, Some mi, Some sec, Some off =>
          if Ascii.eqb c1 "-" && Ascii.eqb c2 "-" && Ascii.eqb t "T"
             && Ascii.eqb c3 ":" && Ascii.eqb c4 ":"
             && (1 <=? y) && (1 <=? mo) && (mo <=? 12)
             && (1 <=? d) && (d <=? days_in_month y mo)
             && (h <? 24) && (mi <? 60) && (sec <? 60)
          then Some (mk_datetime y mo d h mi sec 0 off)
          else None
      | _, _, _, _, _, _, _ => None
      end
  | _ => None
  end.

End Sample.

(** ** A log directory for the examples

    Two fragments of one session.  The directory lists [session_a.jsonl]
    first, but its session started an hour after that of
    [session_b.jsonl]. *)
Module Logs.

Definition nl : string := String "010"%char EmptyString.

Definition event (type timestamp session_id : string) : record :=
  [ ("type", JStr type); ("timestamp", JStr timestamp);
    ("session_id", JStr session_id) ].

Definition summary (session_id : string) (duration input output : Z) : record :=
  [ ("type", JStr "session_summary"); ("session_id", JStr session_id);
    ("summary_data",
      JDict [ ("total_duration_seconds", JInt duration);
              ("total_messages", JInt 2);
              ("usage_totals",
                JDict [ ("total_input_tokens", JInt input);
                        ("total_output_tokens", JInt output) ]) ]) ].

Definition a_start := event "session_start" "2024-01-01T09:00:00Z" "a".
Definition a_user := event "user" "2024-01-01T09:00:10Z" "a".
Definition a_tool := event "tool_call" "2024-01-01T09:00:11Z" "a".
Definition a_assistant := event "assistant" "2024-01-01T09:00:12Z" "a".
Definition a_summary := summary "a" 12 100 40.
Definition a_end := event "session_end" "2024-01-01T09:00:13Z" "a".

Definition b_start := event "session_start" "2024-01-01T08:00:00Z" "b".
Definition b_user := event "user" "2024-01-01T08:00:10Z" "b".
Definition b_thinking := event "assistant_thinking" "2024-01-01T09:00:10Z" "b".
Definition b_untimed : record := [ ("type", JStr "assistant"); ("session_id", JStr "b") ].
Definition b_summary := summary "b" 30 250 60.

Definition a_records : list record :=
  [a_start; a_user; a_tool; a_assistant; a_summary; a_end].
Definition b_records : list record :=
  [b_start; b_user; b_thinking; b_untimed; b_summary].

(** The values whose lines the example loader reads back. *)
Definition corpus : list json :=
  map JDict (a_records ++ b_records)%list ++ [JList []; JInt 42].

Definition json_loads : string -> result json := Sample.loads corpus.

Definition text_of (values : list json) : string :=
  String.concat "" (map (fun v => Sample.dumps v ++ nl) values).

Definition a_text : string := text_of (map JDict a_records).

(** The second fragment has a blank line and a line that is no JSON. *)
Definition b_text : string :=
  text_of (map JDict [b_start; b_user]) ++ nl ++ "{not json" ++ nl
  ++ text_of (map JDict [b_thinking; b_untimed; b_summary]).

Definition two_fragments : dir :=
  [ ("session_a.jsonl", Text a_text);
    ("notes.txt", Text "unrelated");
    ("session_a_raw.jsonl", Text "");
    ("session_b.jsonl", Text b_text) ].



(** The first fragment again, now after a blank first line; the directory
    lists it after the fragment that started an hour before it. *)
Definition blank_first : dir :=
  [ ("session_b.jsonl", Text b_text);
    ("session_c.jsonl", Text (nl ++ a_text)) ].

(** A file that yields one line and then cannot be decoded. *)
Definition undecodable : dir :=
  [ ("session_c.jsonl", Corrupt (text_of [JDict a_user] ++ "{")) ].

(** A line that opens a hundred thousand arrays. *)
Definition deep_line : string := N.iter 100000 (String "["%char) "".

(** The second fragment with such a line between its second and its third
    record. *)
Definition too_deep : dir :=
  [ ("session_a.jsonl", Text a_text);
    ("session_b.jsonl",
     Text (text_of (map JDict [b_start; b_user]) ++ deep_line ++ nl
           ++ text_of (map JDict [b_thinking; b_untimed; b_summary]))) ].

(** A message stamped by a clock that wrote no offset, and one without a
    timestamp. *)
Definition naive_message := event "user" "2024-01-01T10:00:00" "a".

(** A summary record whose statistics hold [total_duration_seconds] and
    [assistant_messages] as given. *)
Definition odd_summary (duration assistant : json) : record :=
  [ ("type", JStr "session_summary");
    ("summary_data",
      JDict [ ("total_duration_seconds", duration);
              ("assistant_messages", assistant) ]) ].

(** The [float]s 0.0 and 9007199254740992.0, which is 2 ^ 53. *)
Definition float_zero : spec_float := S754_zero false.
Definition float_2_53 : spec_float := S754_finite false 4503599627370496 1.

Definition the_env (dk : disk) : env :=
  mk_env "merged" "2024-06-01T00:00:00+00:00" "2024-06-01T00:00:01+00:00"
    "2024-06-01T00:00:02+00:00" dk.

Definition run (dk : disk) (d : dir) : result bool * world :=
  merge_sessions json_loads Sample.dumps Sample.fromisoformat (the_env dk)
    (mk_world d []).

End Logs.

(** The primary files in the order [find_session_files] returns them. *)
Definition discovered (json_loads : string -> result json)
  (fromisoformat : string -> option datetime) (d : dir) : list string :=
  stable_sort (get_start_time json_loads fromisoformat d) (primary_files d).

(** The raw companions [find_session_files] returns. *)
Definition companions (files : list string) (d : dir) : list string :=
  filter (exists_in d)
    (map raw_name (map (fun f => str_replace "session_" "" (stem f)) files)).

(** A slot keeps what it held unless the new events fill it. *)
Definition refill {A : Type} (old new : option A) : option A :=
  match new with
  | Some x => Some x
  | None => old
  end.

(** Two elements in the order of their keys' instants. *)
Definition key_le {A : Type} (key : A -> datetime) (a b : A) : Prop :=
  instant (key a) <= instant (key b).

(** Every parsed line of every one of the [files] is a JSON object. *)
Definition all_records (json_loads : string -> result json) (d : dir)
  (files : list string) : bool :=
  forallb (fun pf => forallb is_dict (events_of json_loads d pf)) files.

(** The classified fragments of a directory, in discovery order. *)
Definition fragments (json_loads : string -> result json)
  (fromisoformat : string -> option datetime) (d : dir) : list session_data :=
  map (fragment json_loads d) (discovered json_loads fromisoformat d).

(** The messages of the merged file: the stamped copies of every fragment's
    messages, in discovery and file order, then sorted. *)
Definition merged_messages (json_loads : string -> result json)
  (fromisoformat : string -> option datetime) (e : env) (d : dir) : list record :=
  stable_sort (message_key fromisoformat)
    (collect_messages (uuid4 e) (fragments json_loads fromisoformat d)).

(** The warnings printed while the fragments of a directory are read. *)
Definition warnings (json_loads : string -> result json)
  (fromisoformat : string -> option datetime) (d : dir) : list message :=
  flat_map (warning_of json_loads d) (discovered json_loads fromisoformat d).

(** ** The command line of merge_sessions.py *)

(** How a run of a script ends: it returns, it leaves through [sys.exit],
    or an exception goes uncaught. *)
Inductive ending : Type :=
| Returns
| Exits (status : Z)
| Fails (e : exn).



(** ** init.py *)

(** What init.py prints. *)
Inductive init_message : Type :=
| Banner
| Platform_line (system : string)
| Python_too_old
| Python_ok
| Git_ok
| Git_missing
| Setup_complete.

(** [a < b] for two tuples of integers: the first place where they differ
    decides, and a tuple that ends first is the smaller. *)
Fixpoint tuple_lt (a b : list Z) : bool :=
  match a, b with
  | _, [] => false
  | [], _ :: _ => true
  | x :: a', y :: b' =>
      if x <? y then true else if y <? x then false else tuple_lt a' b'
  end.

(** [check_python_version()], lines 12 to 16; [version_info] holds the
    leading integers of [sys.version_info] (major, minor, micro), the only
    ones a comparison with [(3, 7)] can reach. *)
Definition check_python_version (version_info : list Z) : ending * list init_message :=
  if tuple_lt version_info [3; 7] then (Exits 1, [Python_too_old])
  else (Returns, [Python_ok]).

(** What [subprocess.run(["git", "--version"], check=True, ...)] meets:
    the program ran and gave a return code, or it could not be started. *)
Inductive subprocess : Type :=
| Completed (returncode : Z)
| Not_started.

(** [check_git()], lines 19 to 25: [check=True] turns a return code other
    than 0 into an exception, and every exception into the exit. *)
Definition check_git (git : subprocess) : ending * list init_message :=
  match git with
  | Completed 0 => (Returns, [Git_ok])
  | _ => (Exits 1, [Git_missing])
  end.

(** [main()] of init.py, lines 28 to 35. *)
Definition init_main (system : string) (version_info : list Z) (git : subprocess)
  : ending * list init_message :=
  let banner := [Banner; Platform_line system] in
  match check_python_version version_info with
  | (Returns, out1) =>
      match check_git git with
      | (Returns, out2) => (Returns, banner ++ out1 ++ out2 ++ [Setup_complete])%list
      | (stop, out2) => (stop, banner ++ out1 ++ out2)%list
      end
  | (stop, out1) => (stop, banner ++ out1)%list
  end.

(** * Properties *)

(** ** dict *)

Lemma dict_get_set_same (d : record) (k : string) (v : json) :
  dict_get (dict_set d k v) k = Some v.
Proof.
  induction d as [|[k' v'] d IH]; simpl.
  - now rewrite String.eqb_refl.
  - destruct (String.eqb k' k) eqn:E; simpl.
    + now rewrite String.eqb_refl.
    + now rewrite E.
Qed.

Lemma dict_get_set_other (d : record) (k k' : string) (v : json) :
  k' <> k -> dict_get (dict_set d k v) k' = dict_get d k'.
Proof.
  intros Hne. induction d as [|[k0 v0] d IH]; simpl.
  - destruct (String.eqb_spec k k'); [congruence | reflexivity].
  - destruct (String.eqb_spec k0 k) as [->|Hk]; simpl.
    + destruct (String.eqb_spec k k'); [congruence | reflexivity].
    + destruct (String.eqb k0 k'); [reflexivity | exact IH].
Qed.

(** ** The directory *)

Lemma dir_lookup_put_same (d : dir) (name : string) (f : file) :
  dir_lookup (dir_put d name f) name = Some f.
Proof.
  induction d as [|[n g] d IH]; simpl.
  - now rewrite String.eqb_refl.
  - destruct (String.eqb n name) eqn:E; simpl.
    + now rewrite String.eqb_refl.
    + now rewrite E.
Qed.


(** ** Sorting *)

Section SortFacts.
Context {A : Type}.
Variable key : A -> datetime.

Lemma insert_by_perm (x : A) (l : list A) :
  Permutation (insert_by key x l) (x :: l).
Proof.
  induction l as [|y l IH]; simpl.
  - apply Permutation_refl.
  - destruct (instant (key y) <? instant (key x)).
    + eapply Permutation_trans; [apply perm_skip, IH | apply perm_swap].
    + apply Permutation_refl.
Qed.

Lemma stable_sort_perm (l : list A) : Permutation (stable_sort key l) l.
Proof.
  induction l as [|x l IH]; simpl.
  - apply perm_nil.
  - eapply Permutation_trans; [apply insert_by_perm | now apply perm_skip].
Qed.

Lemma insert_by_Forall (P : A -> Prop) (x : A) (l : list A) :
  P x -> Forall P l -> Forall P (insert_by key x l).
Proof.
  intros Hx Hl. eapply Permutation_Forall.
  - apply Permutation_sym, insert_by_perm.
  - now constructor.
Qed.

Lemma insert_by_sorted (x : A) (l : list A) :
  StronglySorted (key_le key) l -> StronglySorted (key_le key) (insert_by key x l).
Proof.
  induction 1 as [|y l Hs IH Hy]; simpl.
  - constructor; [constructor | constructor].
  - destruct (instant (key y) <? instant (key x)) eqn:E.
    + apply Z.ltb_lt in E. constructor; [exact IH |].
      apply insert_by_Forall; [unfold key_le; lia | exact Hy].
    + apply Z.ltb_ge in E. constructor.
      * now constructor.
      * constructor; [exact E |].
        eapply Forall_impl; [| exact Hy].
        unfold key_le. intros; lia.
Qed.

Lemma stable_sort_sorted (l : list A) : StronglySorted (key_le key) (stable_sort key l).
Proof.
  induction l as [|x l IH]; simpl.
  - constructor.
  - now apply insert_by_sorted.
Qed.

(** The elements of any one instant come out in the order they went in. *)
Lemma insert_by_stable (t : Z) (x : A) (l : list A) :
  filter (fun a => instant (key a) =? t) (insert_by key x l)
  = filter (fun a => instant (key a) =? t) (x :: l).
Proof.
  induction l as [|y l IH]; [reflexivity |].
  cbn [insert_by].
  destruct (instant (key y) <? instant (key x)) eqn:E; [| reflexivity].
  apply Z.ltb_lt in E.
  cbn [filter] in *. rewrite IH.
  destruct (instant (key x) =? t) eqn:Ex; [| reflexivity].
  apply Z.eqb_eq in Ex.
  assert ((instant (key y) =? t) = false) as -> by (apply Z.eqb_neq; lia).
  reflexivity.
Qed.

Lemma stable_sort_stable (t : Z) (l : list A) :
  filter (fun a => instant (key a) =? t) (stable_sort key l)
  = filter (fun a => instant (key a) =? t) l.
Proof.
  induction l as [|x l IH]; [reflexivity |].
  cbn [stable_sort fold_right]. rewrite insert_by_stable.
  cbn [filter]. fold (stable_sort key l). now rewrite IH.
Qed.

Lemma stable_sort_length (l : list A) :
  List.length (stable_sort key l) = List.length l.
Proof. apply Permutation_length, stable_sort_perm. Qed.


(** Where the keys are comparable, [<] between any two of them is the
    order of their instants. *)
Lemma comparable_lt (l : list A) (a b : A) :
  comparable key l = true -> In a l -> In b l ->
  datetime_lt (key a) (key b) = Ok (instant (key a) <? instant (key b)).
Proof.
  unfold comparable. intros H Ha Hb.
  apply orb_true_iff in H. unfold datetime_lt.
  destruct H as [H|H]; rewrite forallb_forall in H;
    pose proof (H a Ha) as Ea; pose proof (H b Hb) as Eb.
  - now rewrite Ea, Eb.
  - apply negb_true_iff in Ea, Eb. now rewrite Ea, Eb.
Qed.
End SortFacts.

(** ** The classifier *)

Lemma last_where_cons {A : Type} (p : A -> bool) (x : A) (l : list A) :
  last_where p (x :: l)
  = match last_where p l with
    | Some y => Some y
    | None => if p x then Some x else None
    end.
Proof.
  unfold last_where. cbn [filter].
  destruct (p x); [| now destruct (last (map Some (filter p l)) None)].
  cbn [map]. generalize (filter p l) as f. intros f.
  destruct f as [|y f]; [reflexivity |].
  change (last (Some x :: map Some (y :: f)) None)
    with (last (map Some (y :: f)) None).
  assert (H : forall (g : list A) (z : A), exists u, last (map Some (z :: g)) None = Some u).
  { induction g as [|a g IH]; intros z.
    - now exists z.
    - destruct (IH a) as [u Hu]. exists u. exact Hu. }
  destruct (H f y) as [u ->]. reflexivity.
Qed.

(** A record falls into exactly one of the five buckets. *)
Lemma one_bucket (ev : record) :
  (Nat.b2n (has_type "session_start" ev) + Nat.b2n (has_type "session_end" ev)
   + Nat.b2n (has_type "session_summary" ev) + Nat.b2n (is_message ev)
   + Nat.b2n (is_other ev) = 1)%nat.
Proof.
  unfold is_other, is_lifecycle, is_message, has_type, eq_str.
  destruct (dict_get ev "type") as [[| | | |s| |]|]; try reflexivity.
  destruct (String.eqb_spec s "session_start") as [->|]; [reflexivity |].
  destruct (String.eqb_spec s "session_end") as [->|]; [reflexivity |].
  destruct (String.eqb_spec s "session_summary") as [->|]; [reflexivity |].
  destruct (String.eqb_spec s "user") as [->|]; [reflexivity |].
  destruct (String.eqb_spec s "assistant") as [->|]; [reflexivity |].
  destruct (String.eqb_spec s "assistant_thinking") as [->|]; reflexivity.
Qed.

Lemma classify_record (data : session_data) (ev : record) :
  classify data (JDict ev)
  = Ok (if has_type "session_start" ev then
          mk_session_data (Some ev) (session_end data) (session_summary data)
            (messages data) (other_events data)
        else if has_type "session_end" ev then
          mk_session_data (session_start data) (Some ev) (session_summary data)
            (messages data) (other_events data)
        else if has_type "session_summary" ev then
          mk_session_data (session_start data) (session_end data) (Some ev)
            (messages data) (other_events data)
        else if is_message ev then
          mk_session_data (session_start data) (session_end data) (session_summary data)
            (messages data ++ [ev]) (other_events data)
        else
          mk_session_data (session_start data) (session_end data) (session_summary data)
            (messages data) (other_events data ++ [ev])).
Proof.
  unfold classify, is_message, has_type. cbn [as_dict rbind].
  repeat match goal with
         | |- context [if ?b then _ else _] => destruct b
         end; reflexivity.
Qed.

Lemma classify_all_records (events : list record) (data : session_data) :
  classify_all data (map JDict events)
  = Ok (mk_session_data
          (refill (session_start data) (last_where (has_type "session_start") events))
          (refill (session_end data) (last_where (has_type "session_end") events))
          (refill (session_summary data) (last_where (has_type "session_summary") events))
          (messages data ++ filter is_message events)
          (other_events data ++ filter is_other events)).
Proof.
  revert data. induction events as [|ev events IH]; intros data.
  - destruct data. cbn. now rewrite !app_nil_r.
  - cbn [map classify_all]. rewrite classify_record. cbn [rbind].
    rewrite IH, !last_where_cons. cbn [filter].
    pose proof (one_bucket ev) as Hone.
    destruct (last_where (has_type "session_start") events),
             (last_where (has_type "session_end") events),
             (last_where (has_type "session_summary") events),
             (has_type "session_start" ev), (has_type "session_end" ev),
             (has_type "session_summary" ev), (is_message ev), (is_other ev);
      cbn in Hone; try discriminate Hone; cbn; rewrite <- ?app_assoc; reflexivity.
Qed.

Lemma extract_session_data_records (events : list record) :
  extract_session_data (map JDict events) = Ok (classified events).
Proof.
  unfold extract_session_data. rewrite classify_all_records. cbn.
  unfold classified.
  destruct (last_where (has_type "session_start") events),
           (last_where (has_type "session_end") events),
           (last_where (has_type "session_summary") events); reflexivity.
Qed.

Lemma records_of_dicts (events : list json) :
  forallb is_dict events = true -> map JDict (records_of events) = events.
Proof.
  induction events as [|v events IH]; [reflexivity |].
  cbn [forallb]. intros H. apply andb_true_iff in H as [Hv H].
  destruct v; try discriminate.
  change (JDict d :: map JDict (records_of events) = JDict d :: events).
  f_equal. now apply IH.
Qed.

(** A value that is no [dict] stops the classifier. *)
Lemma classify_all_needs_dicts (events : list json) (data data' : session_data) :
  classify_all data events = Ok data' -> forallb is_dict events = true.
Proof.
  revert data. induction events as [|v events IH]; intros data; [reflexivity |].
  cbn [classify_all forallb].
  destruct v as [| | | | | |ev]; try (intros H; discriminate H).
  rewrite classify_record. cbn [rbind is_dict andb]. apply IH.
Qed.

Lemma classify_all_not_dicts (events : list json) (data : session_data) :
  forallb is_dict events = false -> classify_all data events = Raise AttributeError.
Proof.
  revert data. induction events as [|v events IH]; intros data; [discriminate |].
  cbn [classify_all forallb].
  destruct v as [| | | | | |ev]; try reflexivity.
  rewrite classify_record. cbn [rbind is_dict andb]. apply IH.
Qed.

(** ** The aggregator *)

Lemma py_add_int_field (a : Z) (field : string) (d : record) :
  int_or_missing field d = true ->
  py_add (PInt a) (dict_get_default d field (JInt 0)) = Ok (PInt (a + int_field field d)).
Proof.
  unfold int_or_missing, dict_get_default, int_field.
  destruct (dict_get d field) as [[]|]; try discriminate; intros _; cbn.
  - reflexivity.
  - now rewrite Z.add_0_r.
Qed.

Lemma as_dict_summary_data (summary : record) :
  dict_or_missing "summary_data" summary = true ->
  as_dict (dict_get_default summary "summary_data" (JDict [])) = Ok (summary_data_of summary).
Proof.
  unfold dict_or_missing, dict_get_default, summary_data_of.
  destruct (dict_get summary "summary_data") as [[]|]; try discriminate; reflexivity.
Qed.

Lemma as_dict_usage_totals (summary : record) :
  dict_or_missing "usage_totals" (summary_data_of summary) = true ->
  as_dict (dict_get_default (summary_data_of summary) "usage_totals" (JDict []))
  = Ok (usage_totals_of summary).
Proof.
  unfold dict_or_missing, dict_get_default, usage_totals_of.
  destruct (dict_get (summary_data_of summary) "usage_totals") as [[]|];
    try discriminate; reflexivity.
Qed.

Lemma add_summary_integers (a b c d i o : Z) (summary : record) :
  integer_summary summary = true ->
  add_summary (mk_totals (PInt a) (PInt b) (PInt c) (PInt d) (PInt i) (PInt o)) summary
  = Ok (mk_totals
          (PInt (a + int_field "total_duration_seconds" (summary_data_of summary)))
          (PInt (b + int_field "total_messages" (summary_data_of summary)))
          (PInt (c + int_field "assistant_messages" (summary_data_of summary)))
          (PInt (d + int_field "user_prompts" (summary_data_of summary)))
          (PInt (i + int_field "total_input_tokens" (usage_totals_of summary)))
          (PInt (o + int_field "total_output_tokens" (usage_totals_of summary)))).
Proof.
  unfold integer_summary. rewrite !andb_true_iff.
  intros [[[[[[[H1 H2] H3] H4] H5] H6] H7] H8].
  unfold add_summary.
  rewrite (as_dict_summary_data _ H1). cbn [rbind total_duration_seconds
    total_messages assistant_messages user_prompts total_input_tokens
    total_output_tokens].
  rewrite (py_add_int_field _ _ _ H2). cbn [rbind].
  rewrite (py_add_int_field _ _ _ H3). cbn [rbind].
  rewrite (py_add_int_field _ _ _ H4). cbn [rbind].
  rewrite (py_add_int_field _ _ _ H5). cbn [rbind].
  rewrite (as_dict_usage_totals _ H6). cbn [rbind].
  rewrite (py_add_int_field _ _ _ H7). cbn [rbind].
  rewrite (py_add_int_field _ _ _ H8). reflexivity.
Qed.

Lemma add_summaries_integers (summaries : list record) (a b c d i o : Z) :
  forallb integer_summary summaries = true ->
  add_summaries (mk_totals (PInt a) (PInt b) (PInt c) (PInt d) (PInt i) (PInt o)) summaries
  = Ok (mk_totals
          (PInt (a + sum_of (fun s => int_field "total_duration_seconds" (summary_data_of s)) summaries))
          (PInt (b + sum_of (fun s => int_field "total_messages" (summary_data_of s)) summaries))
          (PInt (c + sum_of (fun s => int_field "assistant_messages" (summary_data_of s)) summaries))
          (PInt (d + sum_of (fun s => int_field "user_prompts" (summary_data_of s)) summaries))
          (PInt (i + sum_of (fun s => int_field "total_input_tokens" (usage_totals_of s)) summaries))
          (PInt (o + sum_of (fun s => int_field "total_output_tokens" (usage_totals_of s)) summaries))).
Proof.
  revert a b c d i o. induction summaries as [|s summaries IH]; intros a b c d i o H.
  - cbn. now rewrite !Z.add_0_r.
  - cbn [forallb] in H. apply andb_true_iff in H as [Hs H].
    cbn [add_summaries]. rewrite (add_summary_integers _ _ _ _ _ _ _ Hs).
    cbn [rbind]. rewrite (IH _ _ _ _ _ _ H). cbn [sum_of fold_right].
    now rewrite !Z.add_assoc.
Qed.

(** The same for statistics that are integers or booleans. *)
Lemma py_add_count_field (a : Z) (field : string) (d : record) :
  count_or_missing field d = true ->
  py_add (PInt a) (dict_get_default d field (JInt 0)) = Ok (PInt (a + count_field field d)).
Proof.
  unfold count_or_missing, dict_get_default, count_field.
  destruct (dict_get d field) as [[]|]; try discriminate; intros _; cbn.
  - reflexivity.
  - reflexivity.
  - now rewrite Z.add_0_r.
Qed.

Lemma add_summary_counted (a b c d i o : Z) (summary : record) :
  counted_summary summary = true ->
  add_summary (mk_totals (PInt a) (PInt b) (PInt c) (PInt d) (PInt i) (PInt o)) summary
  = Ok (mk_totals
          (PInt (a + count_field "total_duration_seconds" (summary_data_of summary)))
          (PInt (b + count_field "total_messages" (summary_data_of summary)))
          (PInt (c + count_field "assistant_messages" (summary_data_of summary)))
          (PInt (d + count_field "user_prompts" (summary_data_of summary)))
          (PInt (i + count_field "total_input_tokens" (usage_totals_of summary)))
          (PInt (o + count_field "total_output_tokens" (usage_totals_of summary)))).
Proof.
  unfold counted_summary. rewrite !andb_true_iff.
  intros [[[[[[[H1 H2] H3] H4] H5] H6] H7] H8].
  unfold add_summary.
  rewrite (as_dict_summary_data _ H1). cbn [rbind total_duration_seconds
    total_messages assistant_messages user_prompts total_input_tokens
    total_output_tokens].
  rewrite (py_add_count_field _ _ _ H2). cbn [rbind].
  rewrite (py_add_count_field _ _ _ H3). cbn [rbind].
  rewrite (py_add_count_field _ _ _ H4). cbn [rbind].
  rewrite (py_add_count_field _ _ _ H5). cbn [rbind].
  rewrite (as_dict_usage_totals _ H6). cbn [rbind].
  rewrite (py_add_count_field _ _ _ H7). cbn [rbind].
  rewrite (py_add_count_field _ _ _ H8). reflexivity.
Qed.

Lemma add_summaries_counted (summaries : list record) (a b c d i o : Z) :
  forallb counted_summary summaries = true ->
  add_summaries (mk_totals (PInt a) (PInt b) (PInt c) (PInt d) (PInt i) (PInt o)) summaries
  = Ok (mk_totals
          (PInt (a + sum_of (fun s => count_field "total_duration_seconds" (summary_data_of s)) summaries))
          (PInt (b + sum_of (fun s => count_field "total_messages" (summary_data_of s)) summaries))
          (PInt (c + sum_of (fun s => count_field "assistant_messages" (summary_data_of s)) summaries))
          (PInt (d + sum_of (fun s => count_field "user_prompts" (summary_data_of s)) summaries))
          (PInt (i + sum_of (fun s => count_field "total_input_tokens" (usage_totals_of s)) summaries))
          (PInt (o + sum_of (fun s => count_field "total_output_tokens" (usage_totals_of s)) summaries))).
Proof.
  revert a b c d i o. induction summaries as [|s summaries IH]; intros a b c d i o H.
  - cbn. now rewrite !Z.add_0_r.
  - cbn [forallb] in H. apply andb_true_iff in H as [Hs H].
    cbn [add_summaries]. rewrite (add_summary_counted _ _ _ _ _ _ _ Hs).
    cbn [rbind]. rewrite (IH _ _ _ _ _ _ H). cbn [sum_of fold_right].
    now rewrite !Z.add_assoc.
Qed.

(** An [int] comes of [+=] only where an [int] or a [bool] is added to an
    [int]: a [float] on either side gives a [float]. *)
Lemma py_add_is_int (acc r : pynum) (field : string) (d : record) :
  py_add acc (dict_get_default d field (JInt 0)) = Ok r ->
  is_int r = true ->
  is_int acc = true /\ count_or_missing field d = true.
Proof.
  unfold dict_get_default, count_or_missing.
  destruct acc as [a|x]; (destruct (dict_get d field) as [v|]; [destruct v |]);
    cbn [py_add]; intros H Hr; try discriminate H;
    try (injection H as <-; first [discriminate Hr | split; reflexivity]);
    try (destruct (float_of_int _); cbn [rbind] in H; [injection H as <- |];
         discriminate).
Qed.

Lemma as_dict_get_default (d sd : record) (field : string) :
  as_dict (dict_get_default d field (JDict [])) = Ok sd ->
  dict_or_missing field d = true
  /\ sd = match dict_get d field with Some (JDict x) => x | _ => [] end.
Proof.
  unfold dict_get_default, dict_or_missing.
  destruct (dict_get d field) as [[]|]; cbn [as_dict]; intros H;
    try discriminate H; injection H as <-; split; reflexivity.
Qed.

(** Totals that come out as [int]s went in as [int]s, and the summary
    added was one whose statistics are counted exactly. *)
Lemma add_summary_is_int (t t' : totals) (summary : record) :
  add_summary t summary = Ok t' ->
  integer_totals t' = true ->
  integer_totals t = true /\ counted_summary summary = true.
Proof.
  unfold add_summary. intros H Ht'.
  destruct (as_dict (dict_get_default summary "summary_data" (JDict []))) as [sd|x] eqn:Hsd;
    [| discriminate H].
  apply as_dict_get_default in Hsd as [Hsd ->]. fold (summary_data_of summary) in H.
  cbn [rbind] in H.
  destruct (py_add (total_duration_seconds t) _) as [r1|] eqn:H1; [| discriminate H].
  cbn [rbind] in H.
  destruct (py_add (total_messages t) _) as [r2|] eqn:H2; [| discriminate H].
  cbn [rbind] in H.
  destruct (py_add (assistant_messages t) _) as [r3|] eqn:H3; [| discriminate H].
  cbn [rbind] in H.
  destruct (py_add (user_prompts t) _) as [r4|] eqn:H4; [| discriminate H].
  cbn [rbind] in H.
  destruct (as_dict (dict_get_default (summary_data_of summary) "usage_totals" (JDict [])))
    as [ut|x] eqn:Hut; [| discriminate H].
  apply as_dict_get_default in Hut as [Hut ->]. fold (usage_totals_of summary) in H.
  cbn [rbind] in H.
  destruct (py_add (total_input_tokens t) _) as [r5|] eqn:H5; [| discriminate H].
  cbn [rbind] in H.
  destruct (py_add (total_output_tokens t) _) as [r6|] eqn:H6; [| discriminate H].
  cbn [rbind] in H. injection H as <-.
  unfold integer_totals in Ht'. cbn [total_duration_seconds total_messages
    assistant_messages user_prompts total_input_tokens total_output_tokens] in Ht'.
  rewrite !andb_true_iff in Ht'. destruct Ht' as [[[[[I1 I2] I3] I4] I5] I6].
  destruct (py_add_is_int _ _ _ _ H1 I1) as [A1 C1].
  destruct (py_add_is_int _ _ _ _ H2 I2) as [A2 C2].
  destruct (py_add_is_int _ _ _ _ H3 I3) as [A3 C3].
  destruct (py_add_is_int _ _ _ _ H4 I4) as [A4 C4].
  destruct (py_add_is_int _ _ _ _ H5 I5) as [A5 C5].
  destruct (py_add_is_int _ _ _ _ H6 I6) as [A6 C6].
  unfold integer_totals, counted_summary.
  now rewrite A1, A2, A3, A4, A5, A6, Hsd, Hut, C1, C2, C3, C4, C5, C6.
Qed.

Lemma add_summaries_is_int (summaries : list record) (t t' : totals) :
  add_summaries t summaries = Ok t' ->
  integer_totals t' = true ->
  forallb counted_summary summaries = true.
Proof.
  revert t. induction summaries as [|s summaries IH]; intros t H Ht'; [reflexivity |].
  cbn [add_summaries] in H.
  destruct (add_summary t s) as [t1|] eqn:Hs; [| discriminate H].
  cbn [rbind] in H. cbn [forallb].
  assert (Hrest := IH _ H Ht').
  assert (Ht1 : integer_totals t1 = true).
  { clear IH Hs. revert t1 H. induction summaries as [|s' summaries IH']; intros t1 H.
    - cbn in H. now injection H as ->.
    - cbn [add_summaries] in H.
      destruct (add_summary t1 s') as [t2|] eqn:Hs'; [| discriminate H].
      cbn [rbind] in H. cbn [forallb] in Hrest. apply andb_true_iff in Hrest as [_ Hrest].
      apply (add_summary_is_int _ _ _ Hs'). apply (IH' Hrest _ H). }
  rewrite Hrest, (proj2 (add_summary_is_int _ _ _ Hs Ht1)). reflexivity.
Qed.

(** Summing over the collected summaries is summing over the fragments:
    a fragment without a summary, or with an empty one, adds nothing. *)
Lemma sum_of_all_summaries (f : record -> Z) (sds : list session_data) :
  f [] = 0 -> sum_of f (all_summaries sds) = over_fragments f sds.
Proof.
  intros Hf. induction sds as [|sd sds IH]; [reflexivity |].
  cbn [all_summaries flat_map over_fragments fold_right].
  fold (all_summaries sds). fold (over_fragments f sds). rewrite <- IH.
  destruct (session_summary sd) as [[|entry summary]|]; cbn.
  - rewrite Hf. reflexivity.
  - reflexivity.
  - reflexivity.
Qed.

(** ** The record reader *)

Section ReadingFacts.
Variable json_loads : string -> result json.

Lemma read_events_spec (lines : list string) (failure : option exn) (events : list json) :
  read_events json_loads lines failure events
  = ((events ++ events_from json_loads lines)%list,
     failure_from json_loads lines failure).
Proof.
  revert events. induction lines as [|line lines IH]; intros events.
  - cbn. now rewrite app_nil_r.
  - cbn [read_events events_from failure_from]. unfold parse_line.
    destruct (String.eqb (strip line) "") eqn:E; cbn [negb].
    + apply IH.
    + destruct (json_loads (strip line)) as [v|[]];
        try (now rewrite app_nil_r); try apply IH.
      rewrite IH, <- app_assoc. reflexivity.
Qed.

Lemma read_session_events_spec (filepath : string) (w : world) :
  read_session_events json_loads filepath w
  = (Ok (events_of json_loads (logs w) filepath),
     mk_world (logs w) (printed w ++ warning_of json_loads (logs w) filepath)).
Proof.
  unfold read_session_events, events_of, warning_of.
  destruct (read_lines (logs w) filepath) as [lines failure].
  rewrite read_events_spec. cbn [fst snd app].
  destruct (failure_from json_loads lines failure) as [e|].
  - reflexivity.
  - destruct w. cbn. now rewrite app_nil_r.
Qed.

Lemma read_all_ok (files : list string) (w : world) :
  all_records json_loads (logs w) files = true ->
  read_all json_loads files w
  = (Ok (map (fragment json_loads (logs w)) files),
     mk_world (logs w) (printed w ++ flat_map (warning_of json_loads (logs w)) files)).
Proof.
  revert w. induction files as [|pf files IH]; intros w H.
  - destruct w. cbn. now rewrite app_nil_r.
  - cbn [all_records forallb] in H. apply andb_true_iff in H as [Hpf H].
    cbn [read_all]. unfold bind at 1. rewrite read_session_events_spec.
    unfold bind at 1, lift at 1.
    rewrite <- (records_of_dicts _ Hpf) at 1.
    rewrite extract_session_data_records.
    unfold bind at 1. rewrite IH by exact H.
    cbn [logs printed ret map flat_map]. unfold fragment at 2.
    now rewrite <- app_assoc.
Qed.


Lemma read_all_inv (files : list string) (w : world) (sds : list session_data) :
  fst (read_all json_loads files w) = Ok sds -> all_records json_loads (logs w) files = true.
Proof.
  revert w sds. induction files as [|pf files IH]; intros w sds; [reflexivity |].
  cbn [read_all all_records forallb]. unfold bind at 1.
  rewrite read_session_events_spec. unfold bind at 1, lift at 1.
  destruct (extract_session_data _) as [sd|x] eqn:E; [| discriminate].
  apply classify_all_needs_dicts in E. rewrite E. cbn [andb].
  unfold bind at 1.
  match goal with |- context [read_all json_loads files ?w1] =>
    specialize (IH w1); destruct (read_all json_loads files w1) as [[sds1|x] w2]
  end; cbn in *; [| discriminate].
  intros _. now apply (IH sds1).
Qed.
End ReadingFacts.

(** ** The merge as a whole *)

Section MergeFacts.
Variable json_loads : string -> result json.
Variable json_dumps : json -> string.
Variable fromisoformat : string -> option datetime.

Lemma find_session_files_spec (d : dir) :
  find_session_files json_loads fromisoformat d
  = if comparable (get_start_time json_loads fromisoformat d) (primary_files d)
    then Ok (discovered json_loads fromisoformat d,
             companions (discovered json_loads fromisoformat d) d)
    else Raise TypeError.
Proof.
  unfold find_session_files, sort_by_key, discovered, companions, primary_files.
  destruct (comparable _ _); reflexivity.
Qed.

(** What [merge_sessions] does once discovery, reading, sorting and
    aggregation have gone through: the disk decides. *)
Lemma merge_sessions_run (e : env) (w : world) (tot : totals) :
  (2 <= List.length (primary_files (logs w)))%nat ->
  comparable (get_start_time json_loads fromisoformat (logs w))
    (primary_files (logs w)) = true ->
  all_records json_loads (logs w) (discovered json_loads fromisoformat (logs w)) = true ->
  comparable (message_key fromisoformat)
    (collect_messages (uuid4 e) (fragments json_loads fromisoformat (logs w))) = true ->
  aggregate_summaries (all_summaries (fragments json_loads fromisoformat (logs w)))
    = Ok tot ->
  merge_sessions json_loads json_dumps fromisoformat e w
  = let d := logs w in
    let printed1 := (printed w ++ warnings json_loads fromisoformat d)%list in
    let records :=
      output_records e (merged_messages json_loads fromisoformat e d) tot in
    match output_disk e with
    | Disk_ok =>
        (Ok true,
         mk_world (dir_put d (output_name e) (Text (output_text json_dumps records)))
           (printed1 ++ [Created_file (output_name e)]))
    | Open_fails => (Raise OSError, mk_world d printed1)
    | Write_fails_after n =>
        (Raise OSError,
         mk_world
           (dir_put d (output_name e)
              (Text (String.concat "" (firstn n (map (output_line json_dumps) records)))))
           printed1)
    end.
Proof.
  intros Hlen Hstart Hrec Hkeys Hagg.
  unfold merge_sessions. unfold bind at 1, get_logs at 1.
  unfold bind at 1, lift at 1. rewrite find_session_files_spec, Hstart.
  cbn [fst].
  assert (Hl : (List.length (discovered json_loads fromisoformat (logs w)) <? 2)%nat = false).
  { apply Nat.ltb_ge. unfold discovered. now rewrite stable_sort_length. }
  rewrite Hl. unfold bind at 1. rewrite (read_all_ok _ _ _ Hrec).
  fold (fragments json_loads fromisoformat (logs w)).
  unfold bind at 1, lift at 1, sort_by_key. rewrite Hkeys.
  unfold bind at 1, lift at 1. rewrite Hagg.
  unfold bind at 1, write_lines at 1. cbn [logs printed].
  destruct (output_disk e); reflexivity.
Qed.

(** A merge that reports success has passed every step. *)
Lemma merge_sessions_true (e : env) (w w' : world) :
  merge_sessions json_loads json_dumps fromisoformat e w = (Ok true, w') ->
  (2 <= List.length (primary_files (logs w)))%nat
  /\ comparable (get_start_time json_loads fromisoformat (logs w))
       (primary_files (logs w)) = true
  /\ all_records json_loads (logs w) (discovered json_loads fromisoformat (logs w)) = true
  /\ comparable (message_key fromisoformat)
       (collect_messages (uuid4 e) (fragments json_loads fromisoformat (logs w))) = true
  /\ (exists tot,
        aggregate_summaries (all_summaries (fragments json_loads fromisoformat (logs w)))
        = Ok tot)
  /\ output_disk e = Disk_ok.
Proof.
  unfold merge_sessions. unfold bind at 1, get_logs at 1.
  unfold bind at 1, lift at 1. rewrite find_session_files_spec.
  destruct (comparable _ (primary_files (logs w))) eqn:Hstart; [| discriminate].
  cbn [fst].
  destruct (List.length (discovered json_loads fromisoformat (logs w)) <? 2)%nat eqn:Hl.
  { cbn. discriminate. }
  apply Nat.ltb_ge in Hl. unfold discovered in Hl at 1.
  rewrite stable_sort_length in Hl.
  unfold bind at 1.
  destruct (read_all json_loads (discovered json_loads fromisoformat (logs w)) w)
    as [[sds|x] w1] eqn:Hread; [| discriminate].
  assert (Hrec : all_records json_loads (logs w)
                   (discovered json_loads fromisoformat (logs w)) = true).
  { apply (read_all_inv _ _ _ sds). now rewrite Hread. }
  rewrite (read_all_ok _ _ _ Hrec) in Hread. injection Hread as <- <-.
  fold (fragments json_loads fromisoformat (logs w)).
  unfold bind at 1, lift at 1, sort_by_key.
  destruct (comparable (message_key fromisoformat) _) eqn:Hkeys; [| discriminate].
  unfold bind at 1, lift at 1.
  destruct (aggregate_summaries _) as [tot|x] eqn:Hagg; [| discriminate].
  unfold bind at 1, write_lines at 1.
  destruct (output_disk e); try discriminate.
  intros _. repeat split; try assumption. now exists tot.
Qed.
End MergeFacts.

(** ** Stamped messages *)

Lemma stamp_session_id (id : string) (m : record) :
  dict_get (stamp id m) "session_id" = Some (JStr id).
Proof. apply dict_get_set_same. Qed.

Lemma stamp_other_fields (id : string) (m : record) (k : string) :
  k <> "session_id" -> dict_get (stamp id m) k = dict_get m k.
Proof. intros H. now apply dict_get_set_other. Qed.



Lemma stamp_message_key (fromisoformat : string -> option datetime)
  (id : string) (m : record) :
  message_key fromisoformat (stamp id m) = message_key fromisoformat m.
Proof.
  unfold message_key, dict_get_default. now rewrite stamp_other_fields.
Qed.



(** Every collected message is the stamped copy of a message of some
    fragment. *)
Lemma collect_messages_origin (id : string) (sds : list session_data) (m' : record) :
  In m' (collect_messages id sds) ->
  exists sd m, In sd sds /\ In m (messages sd) /\ m' = stamp id m.
Proof.
  unfold collect_messages. rewrite in_flat_map. intros (sd & Hsd & Hm).
  apply in_map_iff in Hm as (m & <- & Hm). now exists sd, m.
Qed.



Lemma StronglySorted_impl {A : Type} (R R' : A -> A -> Prop) (l : list A) :
  (forall a b, In a l -> In b l -> R a b -> R' a b) ->
  StronglySorted R l -> StronglySorted R' l.
Proof.
  intros H Hs. induction Hs as [|x l Hs IH Hx]; constructor.
  - apply IH. intros a b Ha Hb. apply H; now right.
  - rewrite Forall_forall in *. intros b Hb.
    apply H; [now left | now right | now apply Hx].
Qed.

(** ** Claims *)




(** C2.  In the output of a merge that succeeded the messages stand in
    the order of the instants that [parse_timestamp] derives from their
    [timestamp] field (the empty string standing for a missing field): of
    two messages the later one in the file never has the earlier instant,
    so a message with the instant [t1] stands before every message with an
    instant [t2 > t1], whatever fragment either came from.  Stamping a
    message does not change its instant.  The messages of any one instant
    (with it the messages without a timestamp, or with one that does not
    parse) stand as they were read: fragment after fragment in discovery
    order, and within a fragment in file order. *)
Theorem merged_messages_sorted
  (json_loads : string -> result json) (json_dumps : json -> string)
  (fromisoformat : string -> option datetime) (e : env) (w w' : world) :
  merge_sessions json_loads json_dumps fromisoformat e w = (Ok true, w') ->
  let d := logs w in
  let key (m : record) :=
    parse_timestamp fromisoformat
      match dict_get m "timestamp" with
      | Some ts => ts
      | None => JStr ""
      end in
  let read :=
    flat_map (fun sd => map (fun m => dict_set m "session_id" (JStr (uuid4 e)))
                          (messages sd))
      (map (fun pf => classified (records_of (events_of json_loads d pf)))
         (discovered json_loads fromisoformat d)) in
  let msgs := merged_messages json_loads fromisoformat e d in
  (exists tot,
     logs w' = dir_put d (output_name e)
                 (Text (output_text json_dumps
                          (merged_start e :: msgs
                             ++ [merged_summary e tot; merged_end e]))))
  /\ StronglySorted (fun a b => datetime_lt (key b) (key a) = Ok false) msgs
  /\ (forall a b, In a msgs -> In b msgs ->
        datetime_lt (key a) (key b) = Ok (instant (key a) <? instant (key b)))
  /\ (forall m, key (dict_set m "session_id" (JStr (uuid4 e))) = key m)
  /\ (forall t, filter (fun m => instant (key m) =? t) msgs
                = filter (fun m => instant (key m) =? t) read)
  /\ Permutation msgs read.
Proof.
  intros Hrun d key read msgs.
  destruct (merge_sessions_true _ _ _ _ _ _ Hrun)
    as (Hlen & Hstart & Hrec & Hkeys & (tot & Hagg) & Hdisk).
  rewrite (merge_sessions_run json_loads json_dumps fromisoformat e w tot
             Hlen Hstart Hrec Hkeys Hagg), Hdisk in Hrun.
  cbn zeta in Hrun. injection Hrun as <-.
  change key with (message_key fromisoformat).
  change read with (collect_messages (uuid4 e) (fragments json_loads fromisoformat d)).
  assert (Hperm : Permutation msgs
                    (collect_messages (uuid4 e) (fragments json_loads fromisoformat d)))
    by apply stable_sort_perm.
  assert (Hlt : forall a b, In a msgs -> In b msgs ->
            datetime_lt (message_key fromisoformat a) (message_key fromisoformat b)
            = Ok (instant (message_key fromisoformat a)
                  <? instant (message_key fromisoformat b))).
  { intros a b Ha Hb.
    apply (comparable_lt _ (collect_messages (uuid4 e)
                              (fragments json_loads fromisoformat d)));
      [exact Hkeys | |]; eapply Permutation_in; eassumption. }
  split; [exists tot; reflexivity |].
  split; [| split; [exact Hlt | split; [| split]]].
  - apply (StronglySorted_impl (key_le (message_key fromisoformat)));
      [| apply stable_sort_sorted].
    intros a b Ha Hb Hle. rewrite (Hlt b a Hb Ha).
    f_equal. apply Z.ltb_ge. exact Hle.
  - intros m. apply (stamp_message_key fromisoformat (uuid4 e) m).
  - intros t. apply stable_sort_stable.
  - exact Hperm.
Qed.

(** The messages of the examples were read in the order 08:00:10,
    09:00:10, none, 09:00:10, 09:00:12.  In the merged file the message
    without a timestamp comes first, and of the two messages of 09:00:10
    the one of the fragment discovered first. *)
Lemma merged_messages_sorted_two_fragments :
  let key (m : record) :=
    parse_timestamp Sample.fromisoformat
      match dict_get m "timestamp" with
      | Some ts => ts
      | None => JStr ""
      end in
  let msgs :=
    map (fun m => dict_set m "session_id" (JStr "merged"))
      [Logs.b_untimed; Logs.b_user; Logs.b_thinking; Logs.a_user; Logs.a_assistant] in
  (exists tot,
     logs (snd (Logs.run Disk_ok Logs.two_fragments))
     = dir_put Logs.two_fragments "session_merged.jsonl"
         (Text (output_text Sample.dumps
                  (merged_start (Logs.the_env Disk_ok) :: msgs
                     ++ [merged_summary (Logs.the_env Disk_ok) tot;
                         merged_end (Logs.the_env Disk_ok)]))))
  /\ StronglySorted (fun a b => datetime_lt (key b) (key a) = Ok false) msgs.
Proof.
  pose proof (merged_messages_sorted Logs.json_loads Sample.dumps Sample.fromisoformat
                (Logs.the_env Disk_ok) (mk_world Logs.two_fragments [])
                (snd (Logs.run Disk_ok Logs.two_fragments))
                ltac:(vm_compute; reflexivity)) as H.
  exact (conj (proj1 H) (proj1 (proj2 H))).
Defined.

(** C3, as stated, fails where a statistic is no integer.  A
    [total_duration_seconds] of [null] makes [+=] raise [TypeError], and no
    totals are returned.  A [float] turns the total into a [float], which is
    not exact: 9007199254740993 and 0.0 add up to 9007199254740992.0. *)
Lemma aggregate_summaries_odd_statistics :
  aggregate_summaries
    [Logs.a_summary; Logs.odd_summary JNull (JInt 0); Logs.b_summary]
  = Raise TypeError
  /\ aggregate_summaries
       [Logs.odd_summary (JInt 9007199254740993) (JInt 0);
        Logs.odd_summary (JFloat Logs.float_zero) (JInt 0)]
     = Ok (mk_totals (PFloat Logs.float_2_53) (PInt 0) (PInt 0) (PInt 0) (PInt 0) (PInt 0)).
Proof. split; vm_compute; reflexivity. Qed.

(** C3, amended.  Where every statistic given in the summary records is an
    integer ([true] and [false] counting as the integers 1 and 0 they are
    to [+=]) and the two mappings are objects, the totals are the integer
    sums, field by field, of [total_duration_seconds], [total_messages],
    [assistant_messages], [user_prompts] and, under [usage_totals],
    [total_input_tokens] and [total_output_tokens] over the summary records
    of the fragments, and the merged summary record carries them under
    [summary_data] in the layout written out below.  The condition is the
    weakest one: integer totals are returned for no other summary records.
    A fragment without a summary record adds nothing and raises nothing; a
    field or a mapping that is missing adds 0. *)
Theorem aggregate_summaries_sums (e : env) (all_session_data : list session_data) :
  let summaries := all_summaries all_session_data in
  let sum field :=
    over_fragments (fun s => count_field field (summary_data_of s)) all_session_data in
  let usage field :=
    over_fragments (fun s => count_field field (usage_totals_of s)) all_session_data in
  let t := mk_totals (PInt (sum "total_duration_seconds")) (PInt (sum "total_messages"))
             (PInt (sum "assistant_messages")) (PInt (sum "user_prompts"))
             (PInt (usage "total_input_tokens")) (PInt (usage "total_output_tokens")) in
  (forallb counted_summary summaries = true ->
   aggregate_summaries summaries = Ok t
   /\ merged_summary e t
      = [ ("type", JStr "session_summary");
          ("timestamp", JStr (now_summary e));
          ("session_id", JStr (uuid4 e));
          ("summary_data",
            JDict [ ("total_duration_seconds", JInt (sum "total_duration_seconds"));
                    ("total_messages", JInt (sum "total_messages"));
                    ("assistant_messages", JInt (sum "assistant_messages"));
                    ("user_prompts", JInt (sum "user_prompts"));
                    ("usage_totals",
                      JDict [ ("total_input_tokens", JInt (usage "total_input_tokens"));
                              ("total_output_tokens",
                                JInt (usage "total_output_tokens")) ]) ]) ])
  /\ (forall t', aggregate_summaries summaries = Ok t' ->
        integer_totals t' = true ->
        forallb counted_summary summaries = true)
  /\ (forall f sd rest, session_summary sd = None ->
        over_fragments f (sd :: rest) = over_fragments f rest)
  /\ (forall f sd summary rest, session_summary sd = Some summary ->
        over_fragments f (sd :: rest) = f summary + over_fragments f rest)
  /\ (forall field d n, dict_get d field = Some (JInt n) -> count_field field d = n)
  /\ (forall field d b, dict_get d field = Some (JBool b) ->
        count_field field d = if b then 1 else 0)
  /\ (forall field d, dict_get d field = None -> count_field field d = 0)
  /\ (forall summary sd, dict_get summary "summary_data" = Some (JDict sd) ->
        summary_data_of summary = sd)
  /\ (forall summary, dict_get summary "summary_data" = None ->
        summary_data_of summary = [])
  /\ (forall summary ut,
        dict_get (summary_data_of summary) "usage_totals" = Some (JDict ut) ->
        usage_totals_of summary = ut)
  /\ (forall summary, dict_get (summary_data_of summary) "usage_totals" = None ->
        usage_totals_of summary = []).
Proof.
  intros summaries sum usage t.
  split; [| split; [| repeat split]].
  - intros Hcounted. split; [| reflexivity].
    unfold aggregate_summaries, zero_totals, summaries in *.
    rewrite (add_summaries_counted _ _ _ _ _ _ _ Hcounted). cbn [Z.add].
    unfold t, sum, usage. now rewrite !sum_of_all_summaries by reflexivity.
  - intros t' H Ht'. exact (add_summaries_is_int _ _ _ H Ht').
  - intros f sd rest H. cbn [over_fragments fold_right]. now rewrite H.
  - intros f sd summary rest H. cbn [over_fragments fold_right]. now rewrite H.
  - intros field d n H. unfold count_field. now rewrite H.
  - intros field d b H. unfold count_field. now rewrite H.
  - intros field d H. unfold count_field. now rewrite H.
  - intros summary sd H. unfold summary_data_of. now rewrite H.
  - intros summary H. unfold summary_data_of. now rewrite H.
  - intros summary ut H. unfold usage_totals_of. now rewrite H.
  - intros summary H. unfold usage_totals_of. now rewrite H.
Qed.

(** Summaries with 100 and 250 input tokens give 350; a fragment without
    a summary record between them changes nothing. *)
Lemma aggregate_summaries_sums_350 :
  aggregate_summaries
    (all_summaries
       [ classified Logs.a_records; classified [Logs.b_user]; classified Logs.b_records ])
  = Ok (mk_totals (PInt 42) (PInt 4) (PInt 0) (PInt 0) (PInt 350) (PInt 100))
  /\ merged_summary (Logs.the_env Disk_ok)
       (mk_totals (PInt 42) (PInt 4) (PInt 0) (PInt 0) (PInt 350) (PInt 100))
     = [ ("type", JStr "session_summary");
         ("timestamp", JStr "2024-06-01T00:00:01+00:00");
         ("session_id", JStr "merged");
         ("summary_data",
           JDict [ ("total_duration_seconds", JInt 42);
                   ("total_messages", JInt 4);
                   ("assistant_messages", JInt 0);
                   ("user_prompts", JInt 0);
                   ("usage_totals",
                     JDict [ ("total_input_tokens", JInt 350);
                             ("total_output_tokens", JInt 100) ]) ]) ].
Proof.
  exact (proj1 (aggregate_summaries_sums (Logs.the_env Disk_ok)
                  [ classified Logs.a_records; classified [Logs.b_user];
                    classified Logs.b_records ]) eq_refl).
Defined.

(** [true] for [assistant_messages] counts as one assistant message. *)
Example aggregate_summaries_counts_true :
  aggregate_summaries [Logs.a_summary; Logs.odd_summary (JInt 1) (JBool true)]
  = Ok (mk_totals (PInt 13) (PInt 2) (PInt 1) (PInt 0) (PInt 100) (PInt 40)).
Proof. reflexivity. Qed.



(** C9.  The classifier goes through the records once and puts each into
    one bucket by its [type]: the last [session_start], the last
    [session_end] and the last [session_summary] fill their slots; the
    records of type [user], [assistant] and [assistant_thinking] make up
    [messages] in their order; every other record, also one without a
    [type], makes up [other_events] in its order.  Of the five tests
    exactly one holds for a record. *)
Theorem extract_session_data_partition (events : list record) :
  extract_session_data (map JDict events)
  = Ok (mk_session_data
          (last_where (has_type "session_start") events)
          (last_where (has_type "session_end") events)
          (last_where (has_type "session_summary") events)
          (filter is_message events)
          (filter (fun ev => negb (is_lifecycle ev) && negb (is_message ev)) events))
  /\ (forall ev : record,
        (Nat.b2n (has_type "session_start" ev) + Nat.b2n (has_type "session_end" ev)
         + Nat.b2n (has_type "session_summary" ev) + Nat.b2n (is_message ev)
         + Nat.b2n (negb (is_lifecycle ev) && negb (is_message ev)) = 1)%nat)
  /\ (forall ev : record,
        dict_get ev "type" = None ->
        negb (is_lifecycle ev) && negb (is_message ev) = true).
Proof.
  split; [| split].
  - apply extract_session_data_records.
  - apply one_bucket.
  - intros ev H. unfold is_lifecycle, is_message, has_type. now rewrite H.
Qed.

(** ** The copies in the store *)

Lemma heap_setitem_last (h : heap) (r : record) (k : string) (v : json) :
  heap_setitem (h ++ [r])%list (List.length h) k v = (h ++ [dict_set r k v])%list.
Proof.
  induction h as [|r0 h IH]; [reflexivity |].
  cbn. now rewrite IH.
Qed.

Lemma stamp_messages_spec (id : string) (msgs : list addr) (h : heap)
  (all_messages : list addr) :
  Forall (fun a => (a < List.length h)%nat) msgs ->
  stamp_messages id msgs h all_messages
  = ((h ++ map (fun a => stamp id (nth a h [])) msgs)%list,
     (all_messages ++ seq (List.length h) (List.length msgs))%list).
Proof.
  revert h all_messages. induction msgs as [|msg msgs IH]; intros h acc Hvalid.
  - cbn. now rewrite !app_nil_r.
  - inversion Hvalid as [|? ? Hmsg Hrest]; subst.
    cbn [stamp_messages heap_copy]. rewrite heap_setitem_last.
    fold (stamp id (nth msg h [])).
    rewrite IH.
    + rewrite length_app, <- !app_assoc. cbn [List.length map app seq].
      replace (List.length h + 1)%nat with (S (List.length h)) by lia.
      f_equal. f_equal. f_equal.
      apply map_ext_in. intros a Ha.
      rewrite Forall_forall in Hrest. now rewrite app_nth1 by now apply Hrest.
    + eapply Forall_impl; [| exact Hrest].
      intros a Ha. cbv beta in Ha. rewrite length_app. cbn. lia.
Qed.

Lemma stamp_fragments_spec (id : string) (frags : list (list addr)) (h : heap)
  (all_messages : list addr) :
  Forall (Forall (fun a => (a < List.length h)%nat)) frags ->
  stamp_fragments id frags h all_messages
  = ((h ++ map (fun a => stamp id (nth a h [])) (List.concat frags))%list,
     (all_messages ++ seq (List.length h) (List.length (List.concat frags)))%list).
Proof.
  revert h all_messages. induction frags as [|msgs frags IH]; intros h acc Hvalid.
  - cbn. now rewrite !app_nil_r.
  - inversion Hvalid as [|? ? Hmsgs Hrest]; subst.
    cbn [stamp_fragments]. rewrite stamp_messages_spec by exact Hmsgs.
    rewrite IH.
    + rewrite length_app, length_map, <- !app_assoc. cbn [List.concat].
      rewrite map_app, length_app, seq_app. do 3 f_equal.
      apply map_ext_in. intros a Ha.
      apply in_concat in Ha as (l & Hl & Ha).
      rewrite Forall_forall in Hrest. specialize (Hrest l Hl).
      rewrite Forall_forall in Hrest. now rewrite app_nth1 by now apply Hrest.
    + eapply Forall_impl; [| exact Hrest].
      intros l Hl. eapply Forall_impl; [| exact Hl].
      intros a Ha. cbv beta in Ha. rewrite length_app. lia.
Qed.

Lemma deref_appended (h l : heap) :
  map (deref (h ++ l)%list) (seq (List.length h) (List.length l)) = map Some l.
Proof.
  revert h. induction l as [|r l IH]; intros h; [reflexivity |].
  cbn [List.length seq map]. f_equal.
  - unfold deref. rewrite nth_error_app2 by lia. now rewrite Nat.sub_diag.
  - specialize (IH (h ++ [r])%list).
    rewrite length_app, <- app_assoc in IH. cbn in IH.
    replace (List.length h + 1)%nat with (S (List.length h)) in IH by lia.
    exact IH.
Qed.

Lemma deref_valid (h : heap) (a : addr) :
  (a < List.length h)%nat -> deref h a = Some (nth a h []).
Proof. intros H. unfold deref. now apply nth_error_nth'. Qed.

Lemma collect_messages_map (id : string) (sds : list session_data) :
  collect_messages id sds = map (stamp id) (flat_map messages sds).
Proof.
  unfold collect_messages. induction sds as [|sd sds IH]; [reflexivity |].
  cbn [flat_map]. now rewrite map_app, IH.
Qed.

(** Addresses that hold given records are addresses of the store. *)
Lemma deref_records (h : heap) (l : list addr) (records : list record) :
  map (deref h) l = map Some records ->
  Forall (fun a => (a < List.length h)%nat) l
  /\ map (fun a => nth a h []) l = records.
Proof.
  revert records. induction l as [|a l IH]; intros [|r records] H; try discriminate.
  - split; [constructor | reflexivity].
  - cbn [map] in H. injection H as Ha Hl.
    destruct (IH _ Hl) as [Hvalid Hnth].
    assert (Hlt : (a < List.length h)%nat).
    { apply nth_error_Some. unfold deref in Ha. congruence. }
    split; [now constructor |].
    cbn [map]. f_equal; [| exact Hnth].
    rewrite (deref_valid _ _ Hlt) in Ha. congruence.
Qed.

Lemma deref_fragments (h : heap) (frags : list (list addr)) (sds : list session_data) :
  map (map (deref h)) frags = map (fun sd => map Some (messages sd)) sds ->
  Forall (Forall (fun a => (a < List.length h)%nat)) frags
  /\ map (fun a => nth a h []) (List.concat frags) = flat_map messages sds.
Proof.
  revert sds. induction frags as [|l frags IH]; intros [|sd sds] H; try discriminate.
  - split; [constructor | reflexivity].
  - cbn [map] in H. injection H as Hl Hfrags.
    destruct (IH _ Hfrags) as [Hvalid Hnth].
    destruct (deref_records _ _ _ Hl) as [Hv Hn].
    split; [now constructor |].
    cbn [List.concat flat_map]. rewrite map_app. f_equal; assumption.
Qed.

(** C4.  In the output of a merge that succeeded every message carries the
    identifier drawn for the merge as its [session_id], and is otherwise,
    field by field, a message of one of the fragments.  In the store of
    objects the loop that stamps the messages works on copies: whatever
    store holds the fragments' messages, the objects it held before the
    loop hold the same entries after it, and the objects the loop returns
    are new ones that hold the stamped messages. *)
Theorem merged_messages_stamped
  (json_loads : string -> result json) (json_dumps : json -> string)
  (fromisoformat : string -> option datetime) (e : env) (w w' : world) :
  merge_sessions json_loads json_dumps fromisoformat e w = (Ok true, w') ->
  let d := logs w in
  let id := uuid4 e in
  let all_session_data := fragments json_loads fromisoformat d in
  let msgs := merged_messages json_loads fromisoformat e d in
  (exists tot,
     logs w' = dir_put d (output_name e)
                 (Text (output_text json_dumps (output_records e msgs tot))))
  /\ Forall (fun m' =>
               dict_get m' "session_id" = Some (JStr id)
               /\ exists sd m,
                    In sd all_session_data /\ In m (messages sd)
                    /\ forall k, k <> "session_id" -> dict_get m' k = dict_get m k)
       msgs
  /\ (forall (h : heap) (frags : list (list addr)),
        map (map (deref h)) frags
        = map (fun sd => map Some (messages sd)) all_session_data ->
        let h' := fst (stamp_fragments id frags h []) in
        let copies := snd (stamp_fragments id frags h []) in
        (forall a, (a < List.length h)%nat -> deref h' a = deref h a)
        /\ Forall (fun c => (List.length h <= c)%nat) copies
        /\ map (deref h') copies = map Some (collect_messages id all_session_data)).
Proof.
  intros Hrun d id all_session_data msgs.
  destruct (merge_sessions_true _ _ _ _ _ _ Hrun)
    as (Hlen & Hstart & Hrec & Hkeys & (tot & Hagg) & Hdisk).
  rewrite (merge_sessions_run json_loads json_dumps fromisoformat e w tot
             Hlen Hstart Hrec Hkeys Hagg), Hdisk in Hrun.
  cbn zeta in Hrun. injection Hrun as <-.
  split; [| split].
  - exists tot. reflexivity.
  - apply Forall_forall. intros m' Hm'.
    apply (Permutation_in _ (stable_sort_perm _ _)) in Hm'.
    apply collect_messages_origin in Hm' as (sd & m & Hsd & Hm & ->).
    split; [apply stamp_session_id |].
    exists sd, m. repeat split; try assumption.
    intros k Hk. now apply stamp_other_fields.
  - intros h frags Hheld h' copies.
    destruct (deref_fragments _ _ _ Hheld) as [Hvalid Hnth].
    unfold h', copies. rewrite (stamp_fragments_spec _ _ _ _ Hvalid).
    cbn [fst snd app]. split; [| split].
    + intros a Ha. unfold deref. now rewrite nth_error_app1.
    + apply Forall_forall. intros c Hc. apply in_seq in Hc. lia.
    + transitivity (map Some (map (fun a => stamp id (nth a h [])) (List.concat frags))).
      * rewrite <- (deref_appended h). now rewrite length_map.
      * f_equal. rewrite collect_messages_map.
        rewrite <- Hnth. now rewrite map_map.
Qed.

(** The messages of the merged file of the examples. *)
Lemma merged_messages_stamped_two_fragments :
  Forall (fun m' =>
            dict_get m' "session_id" = Some (JStr "merged")
            /\ exists sd m,
                 In sd (fragments Logs.json_loads Sample.fromisoformat Logs.two_fragments)
                 /\ In m (messages sd)
                 /\ forall k, k <> "session_id" -> dict_get m' k = dict_get m k)
    (merged_messages Logs.json_loads Sample.fromisoformat (Logs.the_env Disk_ok)
       Logs.two_fragments).
Proof.
  exact (proj1 (proj2 (merged_messages_stamped Logs.json_loads Sample.dumps
                         Sample.fromisoformat (Logs.the_env Disk_ok)
                         (mk_world Logs.two_fragments []) _
                         ltac:(vm_compute; reflexivity)))).
Defined.

(** Two messages in a store of three objects: the loop adds two objects and
    leaves the three as they were. *)
Example stamp_fragments_store :
  stamp_fragments "merged" [[0%nat]; [2%nat]]
    [Logs.b_user; Logs.b_summary; Logs.a_user] []
  = ([Logs.b_user; Logs.b_summary; Logs.a_user;
      stamp "merged" Logs.b_user; stamp "merged" Logs.a_user],
     [3%nat; 4%nat]).
Proof. reflexivity. Qed.

(** ** The timestamp parser *)

Section TimestampFacts.
Variable fromisoformat : string -> option datetime.

Lemma parse_timestamp_empty : parse_timestamp fromisoformat (JStr "") = datetime_min_utc.
Proof. reflexivity. Qed.

Lemma parse_timestamp_unparseable (s : string) :
  fromisoformat (str_replace "Z" "+00:00" s) = None ->
  parse_timestamp fromisoformat (JStr s) = datetime_min_utc.
Proof.
  intros H. unfold parse_timestamp. rewrite H. now destruct (negb (truthy (JStr s))).
Qed.

Lemma parse_timestamp_parsed (s : string) (t : datetime) :
  s <> "" -> fromisoformat (str_replace "Z" "+00:00" s) = Some t ->
  parse_timestamp fromisoformat (JStr s) = t.
Proof.
  intros Hs H. unfold parse_timestamp. rewrite H. cbn [truthy].
  destruct (String.eqb_spec s ""); [contradiction | reflexivity].
Qed.

(** A [Z] that ends a string without another [Z] is read as [+00:00]. *)
Lemma str_replace_trailing_Z (s : string) :
  contains "Z" s = false ->
  str_replace "Z" "+00:00" (s ++ "Z") = s ++ "+00:00".
Proof.
  unfold str_replace. induction s as [|c s IH]; [reflexivity |].
  cbn [contains]. intros H. apply orb_false_iff in H as [Hc Hs].
  cbn [String.append replace_from].
  cbn [starts_with] in Hc |- *.
  destruct (Ascii.eqb "Z" c).
  - cbn in Hc. discriminate.
  - cbn [andb]. now rewrite IH.
Qed.

(** A value that is no string, or is falsy, gives the sentinel. *)
Lemma parse_timestamp_not_str (v : json) :
  (forall s, v <> JStr s) -> parse_timestamp fromisoformat v = datetime_min_utc.
Proof.
  intros H. unfold parse_timestamp.
  destruct v; try now destruct (negb (truthy _)).
  now specialize (H s).
Qed.
End TimestampFacts.

(** C7, the input on which the code leaves the claim: a timestamp without
    an offset.  [datetime.fromisoformat] reads it as a naive value and
    [parse_timestamp] returns it as it is, while the sentinel it returns for
    a missing timestamp is aware; the two cannot be compared, and a sort
    that meets both raises [TypeError]. *)
Theorem parse_timestamp_naive :
  parse_timestamp Sample.fromisoformat (JStr "2024-01-01T10:00:00")
  = mk_datetime 2024 1 1 10 0 0 0 None
  /\ aware (parse_timestamp Sample.fromisoformat (JStr "2024-01-01T10:00:00")) = false
  /\ aware (parse_timestamp Sample.fromisoformat (JStr "")) = true
  /\ datetime_lt (parse_timestamp Sample.fromisoformat (JStr "2024-01-01T10:00:00"))
       (parse_timestamp Sample.fromisoformat (JStr "")) = Raise TypeError
  /\ sort_by_key (message_key Sample.fromisoformat) [Logs.naive_message; Logs.b_untimed]
     = Raise TypeError.
Proof. repeat split; vm_compute; reflexivity. Qed.

(** ** The file discoverer *)

Section DiscoveryFacts.
Variable json_loads : string -> result json.
Variable fromisoformat : string -> option datetime.

(** Where every line before the first [session_start] record parses to an
    object, the start time of the file is the parsed timestamp of that
    record. *)
Lemma first_session_start_clean (before after : list string) (line : string)
  (ev : record) (failure : option exn) :
  Forall (fun l => exists r, json_loads (strip l) = Ok (JDict r)
                             /\ has_type "session_start" r = false) before ->
  json_loads (strip line) = Ok (JDict ev) ->
  has_type "session_start" ev = true ->
  first_session_start json_loads fromisoformat (before ++ line :: after) failure
  = Ok (Some (parse_timestamp fromisoformat (dict_get_default ev "timestamp" (JStr "")))).
Proof.
  intros Hbefore Hline Hstart.
  induction Hbefore as [|l before (r & Hl & Hr) _ IH].
  - cbn [app first_session_start]. rewrite Hline.
    cbn [rbind as_dict]. unfold has_type in Hstart. now rewrite Hstart.
  - cbn [app first_session_start]. rewrite Hl.
    cbn [rbind as_dict]. unfold has_type in Hr. rewrite Hr. exact IH.
Qed.

(** A line on which [json.loads] raises, a blank one among them, ends the
    search for the start time, whatever follows it. *)
Lemma first_session_start_bad_line (before after : list string) (line : string)
  (failure : option exn) (x : exn) :
  Forall (fun l => exists r, json_loads (strip l) = Ok (JDict r)
                             /\ has_type "session_start" r = false) before ->
  json_loads (strip line) = Raise x ->
  first_session_start json_loads fromisoformat (before ++ line :: after) failure
  = Raise x.
Proof.
  intros Hbefore Hline.
  induction Hbefore as [|l before (r & Hl & Hr) _ IH].
  - cbn [app first_session_start]. now rewrite Hline.
  - cbn [app first_session_start]. rewrite Hl.
    cbn [rbind as_dict]. unfold has_type in Hr. rewrite Hr. exact IH.
Qed.

(** The primary files come back in the order of their start times. *)
Lemma find_session_files_sorted (d : dir) (files raw : list string) :
  find_session_files json_loads fromisoformat d = Ok (files, raw) ->
  StronglySorted (key_le (get_start_time json_loads fromisoformat d)) files
  /\ Permutation files (primary_files d).
Proof.
  rewrite find_session_files_spec.
  destruct (comparable _ _); [| discriminate].
  intros H. injection H as <- _. split.
  - apply stable_sort_sorted.
  - apply stable_sort_perm.
Qed.
End DiscoveryFacts.

(** C6, the input on which the code leaves the claim: a fragment whose
    first line is blank.  Its first [session_start] record says 09:00, but
    [get_start_time] stops at the blank line and answers with the sentinel,
    so the fragment is put before one that started at 08:00. *)
Theorem get_start_time_blank_first :
  find (has_type "session_start")
    (records_of (events_of Logs.json_loads Logs.blank_first "session_c.jsonl"))
  = Some Logs.a_start
  /\ parse_timestamp Sample.fromisoformat
       (dict_get_default Logs.a_start "timestamp" (JStr ""))
     = mk_datetime 2024 1 1 9 0 0 0 (Some 0)
  /\ get_start_time Logs.json_loads Sample.fromisoformat Logs.blank_first
       "session_c.jsonl" = datetime_min_utc
  /\ get_start_time Logs.json_loads Sample.fromisoformat Logs.blank_first
       "session_b.jsonl" = mk_datetime 2024 1 1 8 0 0 0 (Some 0)
  /\ find_session_files Logs.json_loads Sample.fromisoformat Logs.blank_first
     = Ok (["session_c.jsonl"; "session_b.jsonl"], []).
Proof. repeat split; vm_compute; reflexivity. Qed.

(** ** Failures of reading and writing *)

(** C8, as stated, fails: a file that yields one line and then cannot be
    decoded.  The reading fails, the warning is printed, and the record
    read before the failure is returned: the list is not empty. *)
Lemma read_session_events_partial :
  snd (read_lines Logs.undecodable "session_c.jsonl") = Some UnicodeDecodeError
  /\ read_session_events Logs.json_loads "session_c.jsonl" (mk_world Logs.undecodable [])
     = (Ok [JDict Logs.a_user],
        mk_world Logs.undecodable [Warning_reading "session_c.jsonl" UnicodeDecodeError]).
Proof. split; vm_compute; reflexivity. Qed.

(** C8, amended.  [read_session_events] never raises and changes no file.
    It passes over a blank line and over a line on which [json.loads]
    raises [JSONDecodeError], and goes on with the lines that follow, so
    that such a line takes nothing from what the other lines give; it takes
    the value of every other line it reaches, in order.  Every other
    failure ends the reading with one warning and leaves the records of the
    lines read before it: a file that cannot be opened gives the empty
    list; a file whose reading fails part of the way, or a line on which
    [json.loads] raises another exception than [JSONDecodeError], gives
    what was read up to there, the lines after it being lost.  A file read
    to its end gives no warning. *)
Theorem read_session_events_tolerant
  (json_loads : string -> result json) (filepath : string) (w : world) :
  read_session_events json_loads filepath w
  = (Ok (events_of json_loads (logs w) filepath),
     mk_world (logs w) (printed w ++ warning_of json_loads (logs w) filepath))
  /\ (forall line rest failure,
        strip line = "" \/ json_loads (strip line) = Raise JSONDecodeError ->
        events_from json_loads (line :: rest) = events_from json_loads rest
        /\ failure_from json_loads (line :: rest) failure
           = failure_from json_loads rest failure)
  /\ (forall line v rest failure,
        strip line <> "" -> json_loads (strip line) = Ok v ->
        events_from json_loads (line :: rest) = v :: events_from json_loads rest
        /\ failure_from json_loads (line :: rest) failure
           = failure_from json_loads rest failure)
  /\ (forall line e rest failure,
        strip line <> "" -> json_loads (strip line) = Raise e -> e <> JSONDecodeError ->
        events_from json_loads (line :: rest) = []
        /\ failure_from json_loads (line :: rest) failure = Some e)
  /\ (forall before bad after failure,
        strip bad = "" \/ json_loads (strip bad) = Raise JSONDecodeError ->
        events_from json_loads (before ++ bad :: after)
        = events_from json_loads (before ++ after)
        /\ failure_from json_loads (before ++ bad :: after) failure
           = failure_from json_loads (before ++ after) failure)
  /\ (dir_lookup (logs w) filepath = Some Denied \/ dir_lookup (logs w) filepath = None ->
        events_of json_loads (logs w) filepath = []
        /\ warning_of json_loads (logs w) filepath = [Warning_reading filepath OSError])
  /\ (forall content,
        dir_lookup (logs w) filepath = Some (Corrupt content) ->
        events_of json_loads (logs w) filepath
        = events_from json_loads (complete_lines content)
        /\ exists e, warning_of json_loads (logs w) filepath = [Warning_reading filepath e]
                     /\ failure_from json_loads (complete_lines content)
                          (Some UnicodeDecodeError) = Some e)
  /\ (forall content,
        dir_lookup (logs w) filepath = Some (Text content) ->
        events_of json_loads (logs w) filepath
        = events_from json_loads (splitlines content)
        /\ warning_of json_loads (logs w) filepath
           = match failure_from json_loads (splitlines content) None with
             | Some e => [Warning_reading filepath e]
             | None => []
             end).
Proof.
  assert (Hskip : forall line,
             strip line = "" \/ json_loads (strip line) = Raise JSONDecodeError ->
             parse_line json_loads line = Skipped).
  { intros line [H|H]; unfold parse_line; rewrite H; [reflexivity |].
    now destruct (String.eqb _ _). }
  split; [apply read_session_events_spec |].
  split; [| split; [| split; [| split; [| split; [| split]]]]].
  - intros line rest failure H. cbn [events_from failure_from].
    now rewrite (Hskip line H).
  - intros line v rest failure Hne H. cbn [events_from failure_from].
    unfold parse_line. rewrite H.
    destruct (String.eqb_spec (strip line) ""); [contradiction | now split].
  - intros line e rest failure Hne H He. cbn [events_from failure_from].
    unfold parse_line. rewrite H.
    destruct (String.eqb_spec (strip line) ""); [contradiction |].
    destruct e; try contradiction; now split.
  - intros before bad after failure H.
    induction before as [|l before [IHe IHf]]; cbn [app events_from failure_from].
    + now rewrite (Hskip bad H).
    + rewrite IHe, IHf. now split.
  - intros [H|H]; unfold events_of, warning_of, read_lines; rewrite H; now split.
  - intros content H. unfold events_of, warning_of, read_lines. rewrite H.
    cbn [fst snd]. split; [reflexivity |].
    assert (Hsome : forall lines, exists e,
               failure_from json_loads lines (Some UnicodeDecodeError) = Some e).
    { induction lines as [|l lines [e He]]; cbn [failure_from]; [now eexists |].
      destruct (parse_line json_loads l); eauto. }
    destruct (Hsome (complete_lines content)) as [e He].
    exists e. now rewrite He.
  - intros content H. unfold events_of, warning_of, read_lines. rewrite H. now split.
Qed.

(** The reader stops at a line nested too deep: the records after it are
    lost, and the warning names the exception. *)
Example read_session_events_too_deep :
  fst (read_session_events Logs.json_loads "session_b.jsonl" (mk_world Logs.too_deep []))
  = Ok [JDict Logs.b_start; JDict Logs.b_user]
  /\ printed (snd (read_session_events Logs.json_loads "session_b.jsonl"
                     (mk_world Logs.too_deep [])))
     = [Warning_reading "session_b.jsonl" RecursionError].
Proof. split; vm_compute; reflexivity. Qed.




(** * Further properties of the code *)

(** ** The classifier on any list of values *)

(** X1.  [extract_session_data] (lines 77 to 99) succeeds exactly on the
    lists all of whose values are objects, and then returns the five parts
    of the records; one value that is no object, wherever it stands and
    whatever stands around it, makes it raise [AttributeError]. *)
Theorem extract_session_data_total (events : list json) :
  extract_session_data events
  = if forallb is_dict events
    then Ok (classified (records_of events))
    else Raise AttributeError.
Proof.
  destruct (forallb is_dict events) eqn:E.
  - rewrite <- (records_of_dicts _ E) at 1. apply extract_session_data_records.
  - unfold extract_session_data. now apply classify_all_not_dicts.
Qed.

(** ** The timestamp key *)

(** X2.  The sort key of a message (lines 18 to 25 and 151) is the
    sentinel, the first of all aware instants the parser can return for
    want of a timestamp, in each of these cases: the record has no
    [timestamp]; the field is no string (a number, [null], a list, an
    object); it is the empty string; it is a string that does not parse. *)
Theorem message_key_sentinel (fromisoformat : string -> option datetime) (m : record) :
  (dict_get m "timestamp" = None
   \/ (exists v, dict_get m "timestamp" = Some v /\ forall s, v <> JStr s)
   \/ dict_get m "timestamp" = Some (JStr "")
   \/ (exists s, dict_get m "timestamp" = Some (JStr s)
                 /\ fromisoformat (str_replace "Z" "+00:00" s) = None)) ->
  message_key fromisoformat m = datetime_min_utc.
Proof.
  unfold message_key, dict_get_default.
  intros [H | [(v & H & Hv) | [H | (s & H & Hs)]]]; rewrite H.
  - reflexivity.
  - now apply parse_timestamp_not_str.
  - reflexivity.
  - now apply parse_timestamp_unparseable.
Qed.

(** A message whose timestamp is a number. *)
Lemma message_key_sentinel_number :
  message_key Sample.fromisoformat [("type", JStr "user"); ("timestamp", JInt 1704103200)]
  = datetime_min_utc.
Proof.
  apply (message_key_sentinel Sample.fromisoformat
           [("type", JStr "user"); ("timestamp", JInt 1704103200)]).
  right. left. exists (JInt 1704103200). split; [reflexivity | discriminate].
Defined.

Lemma replace_from_absent (c : ascii) (new s : string) :
  contains (String c EmptyString) s = false ->
  replace_from (String c EmptyString) new O s = s.
Proof.
  induction s as [|a s IH]; [reflexivity |].
  cbn [contains]. intros H. apply orb_false_iff in H as [Ha Hs].
  cbn [replace_from]. rewrite Ha. now rewrite IH.
Qed.

Lemma contains_char_app (c : ascii) (s t : string) :
  contains (String c EmptyString) (s ++ t)
  = contains (String c EmptyString) s || contains (String c EmptyString) t.
Proof.
  induction s as [|a s IH].
  - cbn. reflexivity.
  - cbn [String.append contains starts_with]. rewrite IH.
    destruct (Ascii.eqb c a); cbn; [reflexivity |].
    reflexivity.
Qed.

(** X3.  A timestamp that ends in [Z] and has no other [Z] gets the key of
    the same timestamp written with [+00:00] (lines 22 and 23): both go to
    [datetime.fromisoformat] as the same text. *)
Theorem parse_timestamp_Z_is_utc (fromisoformat : string -> option datetime) (s : string) :
  contains "Z" s = false ->
  parse_timestamp fromisoformat (JStr (s ++ "Z"))
  = parse_timestamp fromisoformat (JStr (s ++ "+00:00")).
Proof.
  intros H. unfold parse_timestamp.
  rewrite (str_replace_trailing_Z s H).
  unfold str_replace at 1.
  rewrite replace_from_absent
    by (rewrite contains_char_app, H; reflexivity).
  assert (Hz : truthy (JStr (s ++ "Z")) = true) by now destruct s.
  assert (Ho : truthy (JStr (s ++ "+00:00")) = true) by now destruct s.
  now rewrite Hz, Ho.
Qed.

(** The two spellings of nine o'clock UTC. *)
Lemma parse_timestamp_Z_is_utc_nine :
  parse_timestamp Sample.fromisoformat (JStr "2024-01-01T09:00:00Z")
  = parse_timestamp Sample.fromisoformat (JStr "2024-01-01T09:00:00+00:00").
Proof.
  exact (parse_timestamp_Z_is_utc Sample.fromisoformat "2024-01-01T09:00:00" eq_refl).
Defined.

(** ** The aggregator, further *)

Lemma sum_of_perm (f : record -> Z) (l1 l2 : list record) :
  Permutation l1 l2 -> sum_of f l1 = sum_of f l2.
Proof.
  induction 1 as [| x l l' _ IH | x y l | l l' l'' _ IH1 _ IH2]; cbn.
  - reflexivity.
  - fold (sum_of f l). fold (sum_of f l'). now rewrite IH.
  - fold (sum_of f l). lia.
  - now rewrite IH1.
Qed.

Lemma forallb_perm {A : Type} (p : A -> bool) (l1 l2 : list A) :
  Permutation l1 l2 -> forallb p l1 = forallb p l2.
Proof.
  induction 1 as [| x l l' _ IH | x y l | l l' l'' _ IH1 _ IH2]; cbn.
  - reflexivity.
  - now rewrite IH.
  - now destruct (p x), (p y).
  - now rewrite IH1.
Qed.

(** X4.  For summaries whose statistics are integers the totals of
    [aggregate_summaries] (lines 102 to 125) do not depend on the order in
    which the summaries come: however the fragments are discovered, the
    same totals are written. *)
Theorem aggregate_summaries_any_order (l1 l2 : list record) :
  Permutation l1 l2 ->
  forallb integer_summary l1 = true ->
  aggregate_summaries l1 = aggregate_summaries l2.
Proof.
  intros Hperm H1.
  assert (H2 : forallb integer_summary l2 = true)
    by now rewrite <- (forallb_perm _ _ _ Hperm).
  unfold aggregate_summaries, zero_totals.
  rewrite (add_summaries_integers _ _ _ _ _ _ _ H1).
  rewrite (add_summaries_integers _ _ _ _ _ _ _ H2).
  now rewrite !(sum_of_perm _ _ _ Hperm).
Qed.

(** The two summaries of the examples, in either order. *)
Lemma aggregate_summaries_any_order_two :
  aggregate_summaries [Logs.a_summary; Logs.b_summary]
  = aggregate_summaries [Logs.b_summary; Logs.a_summary].
Proof.
  exact (aggregate_summaries_any_order [Logs.a_summary; Logs.b_summary]
           [Logs.b_summary; Logs.a_summary] (perm_swap _ _ []) eq_refl).
Defined.

(** A summary stops the aggregation when its statistics are no object. *)
Lemma add_summary_not_dict (t : totals) (summary : record) :
  dict_or_missing "summary_data" summary = false ->
  add_summary t summary = Raise AttributeError.
Proof.
  unfold dict_or_missing, add_summary, dict_get_default.
  destruct (dict_get summary "summary_data") as [[]|]; try discriminate; reflexivity.
Qed.

(** No number comes of adding a string, [null], a list or an object. *)
Lemma py_add_not_number (acc : pynum) (v : json) :
  match v with JInt _ | JBool _ | JFloat _ => False | _ => True end ->
  py_add acc v = Raise TypeError.
Proof. destruct v; intros H; try contradiction; reflexivity. Qed.

(** X5.  [aggregate_summaries] (lines 114 to 123) validates nothing: after
    any number of integer summaries, a summary whose [summary_data] is
    present and no object makes it raise [AttributeError], and one whose
    [total_duration_seconds] is a string, [null], a list or an object makes
    it raise [TypeError]; no totals are returned, whatever follows. *)
Theorem aggregate_summaries_rejects (before after : list record) (bad : record) :
  forallb integer_summary before = true ->
  (dict_or_missing "summary_data" bad = false ->
   aggregate_summaries (before ++ bad :: after) = Raise AttributeError)
  /\ (forall sd v,
        dict_get bad "summary_data" = Some (JDict sd) ->
        dict_get sd "total_duration_seconds" = Some v ->
        match v with JInt _ | JBool _ | JFloat _ => False | _ => True end ->
        aggregate_summaries (before ++ bad :: after) = Raise TypeError).
Proof.
  intros Hbefore. unfold aggregate_summaries, zero_totals.
  assert (Happ : forall t l1 l2,
             add_summaries t (l1 ++ l2)
             = rbind (add_summaries t l1) (fun t' => add_summaries t' l2)).
  { intros t l1. revert t. induction l1 as [|s l1 IH]; intros t l2; [reflexivity |].
    cbn [app add_summaries]. destruct (add_summary t s); cbn [rbind]; [apply IH | reflexivity]. }
  rewrite Happ, (add_summaries_integers _ _ _ _ _ _ _ Hbefore). cbn [rbind add_summaries].
  split.
  - intros H. now rewrite add_summary_not_dict.
  - intros sd v Hsd Hv Hbad. unfold add_summary, dict_get_default.
    rewrite Hsd. cbn [as_dict rbind]. rewrite Hv.
    now rewrite py_add_not_number.
Qed.

(** A summary whose statistics are a list, after a good one. *)
Lemma aggregate_summaries_rejects_list :
  aggregate_summaries
    [Logs.a_summary; [("type", JStr "session_summary"); ("summary_data", JList [])]]
  = Raise AttributeError.
Proof.
  exact (proj1 (aggregate_summaries_rejects [Logs.a_summary] []
                  [("type", JStr "session_summary"); ("summary_data", JList [])]
                  eq_refl) eq_refl).
Defined.

(** X6.  The summary record the merge writes (lines 162 to 167) is a
    summary the aggregator reads back to the same totals: aggregating the
    merged summary alone gives the integer totals it carries, so a merged
    file can be merged again without its statistics changing. *)
Theorem aggregate_summaries_merged_summary (e : env) (a b c d i o : Z) :
  let t := mk_totals (PInt a) (PInt b) (PInt c) (PInt d) (PInt i) (PInt o) in
  aggregate_summaries [merged_summary e t] = Ok t
  /\ integer_summary (merged_summary e t) = true.
Proof.
  cbn zeta. split; [| reflexivity].
  unfold aggregate_summaries, zero_totals.
  rewrite add_summaries_integers by reflexivity.
  cbn. now rewrite !Z.add_0_r.
Qed.

(** ** Stamping and sorting, further *)

Lemma dict_set_keys (d : record) (k : string) (v : json) :
  map fst (dict_set d k v)
  = match dict_get d k with
    | Some _ => map fst d
    | None => (map fst d ++ [k])%list
    end.
Proof.
  induction d as [|[k' v'] d IH]; [reflexivity |].
  cbn [dict_set dict_get]. destruct (String.eqb_spec k' k) as [->|Hne].
  - reflexivity.
  - cbn [map fst]. rewrite IH. now destruct (dict_get d k).
Qed.

Lemma dict_set_twice (d : record) (k : string) (v v' : json) :
  dict_set (dict_set d k v) k v' = dict_set d k v'.
Proof.
  induction d as [|[k0 v0] d IH]; cbn [dict_set].
  - now rewrite String.eqb_refl.
  - destruct (String.eqb k0 k) eqn:E; cbn [dict_set].
    + now rewrite String.eqb_refl.
    + now rewrite E, IH.
Qed.

(** X7.  Stamping a message (lines 147 and 148) keeps its fields in their
    order: a [session_id] the message had keeps its place and gets the new
    value, and a message without one gets the field as its last.  A second
    stamp replaces the first, so a message that is merged again carries
    only the identifier of the last merge. *)
Theorem stamp_fields (id id' : string) (m : record) :
  map fst (stamp id m)
  = match dict_get m "session_id" with
    | Some _ => map fst m
    | None => (map fst m ++ ["session_id"])%list
    end
  /\ stamp id' (stamp id m) = stamp id' m
  /\ List.length (stamp id (stamp id' m)) = List.length (stamp id' m).
Proof.
  split; [apply dict_set_keys |]. split; [apply dict_set_twice |].
  unfold stamp at 1. rewrite <- (length_map fst), dict_set_keys.
  now rewrite stamp_session_id, length_map.
Qed.

Lemma insert_by_first {A : Type} (key : A -> datetime) (x : A) (l : list A) :
  Forall (key_le key x) l -> insert_by key x l = x :: l.
Proof.
  intros H. destruct l as [|y l]; [reflexivity |].
  inversion H as [|? ? Hy _]; subst. cbn [insert_by]. unfold key_le in Hy.
  destruct (Z.ltb_spec (instant (key y)) (instant (key x))); [lia | reflexivity].
Qed.

(** X8.  A list that already stands in the order of its keys comes out of
    the sort (line 151) as it went in: fragments that follow each other in
    time, each with its messages in order, are laid end to end. *)
Theorem stable_sort_sorted_input {A : Type} (key : A -> datetime) (l : list A) :
  StronglySorted (key_le key) l -> stable_sort key l = l.
Proof.
  induction 1 as [|x l Hs IH Hx]; [reflexivity |].
  cbn [stable_sort fold_right]. fold (stable_sort key l).
  rewrite IH. now apply insert_by_first.
Qed.

(** The messages of the second fragment of the examples, in file order. *)
Lemma stable_sort_sorted_input_fragment :
  stable_sort (message_key Sample.fromisoformat) [Logs.b_user; Logs.b_thinking]
  = [Logs.b_user; Logs.b_thinking].
Proof.
  apply (stable_sort_sorted_input (message_key Sample.fromisoformat)
           [Logs.b_user; Logs.b_thinking]).
  repeat constructor. vm_compute. discriminate.
Defined.

(** ** The merged file as a fragment *)

Lemma last_where_none {A : Type} (p : A -> bool) (l : list A) :
  Forall (fun x => p x = false) l -> last_where p l = None.
Proof.
  induction 1 as [|x l Hx _ IH]; [reflexivity |].
  rewrite last_where_cons, IH, Hx. reflexivity.
Qed.

Lemma last_where_app_none {A : Type} (p : A -> bool) (l1 l2 : list A) :
  Forall (fun x => p x = false) l1 -> last_where p (l1 ++ l2) = last_where p l2.
Proof.
  induction 1 as [|x l1 Hx _ IH]; [reflexivity |].
  cbn [app]. rewrite last_where_cons, IH, Hx. now destruct (last_where p l2).
Qed.

Lemma filter_all {A : Type} (p : A -> bool) (l : list A) :
  Forall (fun x => p x = true) l -> filter p l = l.
Proof.
  induction 1 as [|x l Hx _ IH]; [reflexivity |].
  cbn [filter]. now rewrite Hx, IH.
Qed.

Lemma filter_none {A : Type} (p : A -> bool) (l : list A) :
  Forall (fun x => p x = false) l -> filter p l = [].
Proof.
  induction 1 as [|x l Hx _ IH]; [reflexivity |].
  cbn [filter]. now rewrite Hx, IH.
Qed.

Lemma message_only (m : record) :
  is_message m = true ->
  has_type "session_start" m = false /\ has_type "session_end" m = false
  /\ has_type "session_summary" m = false /\ is_other m = false.
Proof.
  intros H. pose proof (one_bucket m) as Hone. rewrite H in Hone.
  destruct (has_type "session_start" m), (has_type "session_end" m),
           (has_type "session_summary" m), (is_other m);
    cbn in Hone; try discriminate Hone; auto.
Qed.

(** X9.  The records the merge writes (lines 156 to 181) classify as one
    well-formed session: put through [extract_session_data] they give back
    the synthesized start, end and summary in their slots, the messages in
    the order written, and no unclassified record. *)
Theorem extract_session_data_output (e : env) (msgs : list record) (t : totals) :
  Forall (fun m => is_message m = true) msgs ->
  extract_session_data (map JDict (output_records e msgs t))
  = Ok (mk_session_data (Some (merged_start e)) (Some (merged_end e))
          (Some (merged_summary e t)) msgs []).
Proof.
  intros Hmsgs. rewrite extract_session_data_records.
  assert (Hs : Forall (fun m => has_type "session_start" m = false) msgs)
    by (eapply Forall_impl; [| exact Hmsgs]; intros m Hm; now apply message_only in Hm).
  assert (He : Forall (fun m => has_type "session_end" m = false) msgs)
    by (eapply Forall_impl; [| exact Hmsgs]; intros m Hm; now apply message_only in Hm).
  assert (Hy : Forall (fun m => has_type "session_summary" m = false) msgs)
    by (eapply Forall_impl; [| exact Hmsgs]; intros m Hm; now apply message_only in Hm).
  assert (Ho : Forall (fun m => is_other m = false) msgs)
    by (eapply Forall_impl; [| exact Hmsgs]; intros m Hm; now apply message_only in Hm).
  unfold classified, output_records.
  rewrite !last_where_cons, !last_where_app_none by assumption.
  cbn [filter]. rewrite !filter_app.
  rewrite (filter_all _ _ Hmsgs), (filter_none _ _ Ho).
  change (filter is_message [merged_summary e t; merged_end e]) with (@nil record).
  rewrite app_nil_r. reflexivity.
Qed.

(** The records of the merged file of the examples. *)
Lemma extract_session_data_output_two_fragments :
  extract_session_data
    (map JDict
       (output_records (Logs.the_env Disk_ok)
          (map (stamp "merged") [Logs.b_untimed; Logs.b_user])
          zero_totals))
  = Ok (mk_session_data (Some (merged_start (Logs.the_env Disk_ok)))
          (Some (merged_end (Logs.the_env Disk_ok)))
          (Some (merged_summary (Logs.the_env Disk_ok) zero_totals))
          (map (stamp "merged") [Logs.b_untimed; Logs.b_user]) []).
Proof.
  apply (extract_session_data_output (Logs.the_env Disk_ok)
           (map (stamp "merged") [Logs.b_untimed; Logs.b_user]) zero_totals).
  repeat constructor.
Defined.

(** ** Strings *)

Lemma append_empty_r (s : string) : s ++ "" = s.
Proof. induction s as [|c s IH]; [reflexivity |]. cbn. now rewrite IH. Qed.

Lemma append_associative (s t u : string) : (s ++ t) ++ u = s ++ (t ++ u).
Proof. induction s as [|c s IH]; [reflexivity |]. cbn. now rewrite IH. Qed.

Lemma length_append (s t : string) :
  String.length (s ++ t) = (String.length s + String.length t)%nat.
Proof. induction s as [|c s IH]; [reflexivity |]. cbn. now rewrite IH. Qed.

Lemma starts_with_append (p s : string) : starts_with p (p ++ s) = true.
Proof.
  induction p as [|c p IH]; [reflexivity |].
  cbn. now rewrite Ascii.eqb_refl, IH.
Qed.

Lemma contains_append_r (p s t : string) :
  contains p t = true -> contains p (s ++ t) = true.
Proof.
  intros H. induction s as [|c s IH]; [exact H |].
  cbn [String.append contains]. rewrite IH. apply orb_true_r.
Qed.

Lemma contains_starts_with (p s : string) :
  starts_with p s = true -> contains p s = true.
Proof. intros H. destruct s; cbn [contains]; now rewrite H. Qed.

Lemma string_rev_onto_spec (acc s : string) :
  string_rev_onto acc s = string_rev s ++ acc.
Proof.
  unfold string_rev. revert acc. induction s as [|c s IH]; intros acc; [reflexivity |].
  cbn [string_rev_onto]. rewrite IH, (IH (String c "")).
  now rewrite append_associative.
Qed.

Lemma string_rev_append (s t : string) :
  string_rev (s ++ t) = string_rev t ++ string_rev s.
Proof.
  induction s as [|c s IH].
  - cbn. now rewrite append_empty_r.
  - change (string_rev (String c s ++ t))
      with (string_rev_onto (String c "") (s ++ t)).
    change (string_rev (String c s)) with (string_rev_onto (String c "") s).
    rewrite !string_rev_onto_spec, IH. apply append_associative.
Qed.

Lemma ends_with_append (p s : string) : ends_with p (s ++ p) = true.
Proof. unfold ends_with. rewrite string_rev_append. apply starts_with_append. Qed.




Lemma dir_lookup_listed (d : dir) (name : string) :
  In name (map fst d) -> exists_in d name = true.
Proof.
  unfold exists_in. induction d as [|[n f] d IH]; [contradiction |].
  cbn [map fst In dir_lookup]. intros [->|H].
  - now rewrite String.eqb_refl.
  - destruct (String.eqb n name); [reflexivity | now apply IH].
Qed.

Lemma is_raw_raw_name (sid : string) : is_raw (raw_name sid) = true.
Proof.
  unfold is_raw, raw_name.
  apply (contains_append_r "_raw.jsonl" "session_" (sid ++ "_raw.jsonl")).
  apply contains_append_r. reflexivity.
Qed.

(** ** The file discoverer, further *)

(** X10.  When [find_session_files] (lines 28 to 58) returns, the primary
    files are the directory entries that match [session_*.jsonl] and have
    no [_raw.jsonl] in their name, each once, in the order of their start
    keys, files of one key in the order the directory lists them.  Every
    raw file returned is an entry of the directory with [_raw.jsonl] in its
    name and is none of the primary files, and there are no more raw files
    than primary ones. *)
Theorem find_session_files_result
  (json_loads : string -> result json) (fromisoformat : string -> option datetime)
  (d : dir) (files raw : list string) :
  find_session_files json_loads fromisoformat d = Ok (files, raw) ->
  let key := get_start_time json_loads fromisoformat d in
  Permutation files (primary_files d)
  /\ StronglySorted (key_le key) files
  /\ (forall t, filter (fun f => instant (key f) =? t) files
                = filter (fun f => instant (key f) =? t) (primary_files d))
  /\ Forall (fun f => glob_match f = true /\ is_raw f = false
                      /\ exists_in d f = true) files
  /\ Forall (fun r => is_raw r = true /\ exists_in d r = true /\ ~ In r files) raw
  /\ (List.length raw <= List.length files)%nat.
Proof.
  rewrite find_session_files_spec.
  destruct (comparable _ _); [| discriminate].
  intros H key. injection H as <- <-.
  assert (Hperm : Permutation (discovered json_loads fromisoformat d) (primary_files d))
    by apply stable_sort_perm.
  assert (Hfiles : Forall (fun f => glob_match f = true /\ is_raw f = false
                                    /\ exists_in d f = true)
                     (discovered json_loads fromisoformat d)).
  { apply Forall_forall. intros f Hf. apply (Permutation_in _ Hperm) in Hf.
    unfold primary_files in Hf. apply filter_In in Hf as [Hf Hraw].
    apply filter_In in Hf as [Hf Hglob].
    repeat split; [exact Hglob | now apply negb_true_iff | now apply dir_lookup_listed]. }
  split; [exact Hperm |]. split; [apply stable_sort_sorted |].
  split; [intros t; apply stable_sort_stable |].
  split; [exact Hfiles |]. split.
  - apply Forall_forall. intros r Hr. unfold companions in Hr.
    apply filter_In in Hr as [Hr Hex].
    apply in_map_iff in Hr as (sid & <- & _).
    repeat split; [apply is_raw_raw_name | exact Hex |].
    intros Hin. rewrite Forall_forall in Hfiles.
    destruct (Hfiles _ Hin) as (_ & Hraw & _).
    rewrite is_raw_raw_name in Hraw. discriminate.
  - unfold companions.
    eapply Nat.le_trans; [apply filter_length_le |].
    now rewrite !length_map.
Qed.

(** The directory of the examples. *)
Lemma find_session_files_result_two_fragments :
  Permutation ["session_b.jsonl"; "session_a.jsonl"] (primary_files Logs.two_fragments).
Proof.
  exact (proj1 (find_session_files_result Logs.json_loads Sample.fromisoformat
                  Logs.two_fragments ["session_b.jsonl"; "session_a.jsonl"]
                  ["session_a_raw.jsonl"] ltac:(vm_compute; reflexivity))).
Defined.



(** ** The merge, further *)





Lemma dir_put_names (d : dir) (name : string) (f : file) :
  map fst (dir_put d name f)
  = if exists_in d name then map fst d else (map fst d ++ [name])%list.
Proof.
  unfold exists_in. induction d as [|[n g] d IH]; [reflexivity |].
  cbn [dir_put dir_lookup]. destruct (String.eqb_spec n name) as [->|Hne].
  - reflexivity.
  - cbn [map fst]. rewrite IH. now destruct (dir_lookup d name).
Qed.

Lemma exists_in_listed (d : dir) (name : string) :
  exists_in d name = true -> In name (map fst d).
Proof.
  unfold exists_in. induction d as [|[n g] d IH]; [discriminate |].
  cbn [dir_lookup map fst In]. destruct (String.eqb_spec n name) as [->|Hne].
  - now left.
  - intros H. right. now apply IH.
Qed.

Lemma glob_match_output_name (e : env) : glob_match (output_name e) = true.
Proof.
  unfold glob_match, output_name.
  rewrite ends_with_append, append_associative, starts_with_append.
  rewrite !length_append. cbn [String.length andb].
  apply Nat.leb_le. lia.
Qed.

(** X14.  The file a successful merge writes (line 175) is named
    [session_<id>.jsonl] and so matches the pattern of the directory scan:
    unless the identifier makes the name hold [_raw.jsonl], the output is
    one of the primary files of the directory afterwards, and where no
    entry of that name existed before, the next run finds one primary file
    more.  The fragments it was merged from stay where they were. *)
Theorem merge_sessions_output_is_primary
  (json_loads : string -> result json) (json_dumps : json -> string)
  (fromisoformat : string -> option datetime) (e : env) (w w' : world) :
  merge_sessions json_loads json_dumps fromisoformat e w = (Ok true, w') ->
  is_raw (output_name e) = false ->
  In (output_name e) (primary_files (logs w'))
  /\ (forall f, In f (primary_files (logs w)) -> In f (primary_files (logs w')))
  /\ (exists_in (logs w) (output_name e) = false ->
      primary_files (logs w') = (primary_files (logs w) ++ [output_name e])%list).
Proof.
  intros Hrun Hraw.
  destruct (merge_sessions_true _ _ _ _ _ _ Hrun)
    as (Hlen & Hstart & Hrec & Hkeys & (tot & Hagg) & Hdisk).
  rewrite (merge_sessions_run json_loads json_dumps fromisoformat e w tot
             Hlen Hstart Hrec Hkeys Hagg), Hdisk in Hrun.
  cbn zeta in Hrun. injection Hrun as <-. cbn [logs].
  unfold primary_files. rewrite dir_put_names.
  destruct (exists_in (logs w) (output_name e)) eqn:Hex.
  - split; [| split].
    + apply filter_In. split; [| now rewrite Hraw].
      apply filter_In. split; [now apply exists_in_listed | apply glob_match_output_name].
    + auto.
    + discriminate.
  - rewrite !filter_app. cbn [filter].
    rewrite glob_match_output_name. cbn [filter]. rewrite Hraw. cbn [negb].
    split; [| split].
    + apply in_or_app. right. now left.
    + intros f Hf. apply in_or_app. now left.
    + reflexivity.
Qed.

(** After the merge of the examples a scan finds three primary files. *)
Lemma merge_sessions_output_is_primary_two_fragments :
  primary_files (logs (snd (Logs.run Disk_ok Logs.two_fragments)))
  = ["session_a.jsonl"; "session_b.jsonl"; "session_merged.jsonl"].
Proof.
  exact (proj2 (proj2 (merge_sessions_output_is_primary Logs.json_loads Sample.dumps
                         Sample.fromisoformat (Logs.the_env Disk_ok)
                         (mk_world Logs.two_fragments []) _
                         ltac:(vm_compute; reflexivity) ltac:(vm_compute; reflexivity)))
           ltac:(vm_compute; reflexivity)).
Defined.

(** X15.  Where a file can be read and every line before its first
    [session_start] record parses to an object, [get_start_time] (lines 38
    to 47) is the parsed timestamp of that record, whatever follows it:
    lines that do not parse, or a later [session_start] record, which is
    the one the classifier would keep. *)
Theorem get_start_time_first_record
  (json_loads : string -> result json) (fromisoformat : string -> option datetime)
  (d : dir) (filepath content : string) (before after : list string)
  (line : string) (ev : record) :
  dir_lookup d filepath = Some (Text content) ->
  splitlines content = (before ++ line :: after)%list ->
  Forall (fun l => exists r, json_loads (strip l) = Ok (JDict r)
                             /\ has_type "session_start" r = false) before ->
  json_loads (strip line) = Ok (JDict ev) ->
  has_type "session_start" ev = true ->
  get_start_time json_loads fromisoformat d filepath
  = parse_timestamp fromisoformat (dict_get_default ev "timestamp" (JStr "")).
Proof.
  intros Hfile Hlines Hbefore Hline Hstart.
  unfold get_start_time, read_lines. rewrite Hfile, Hlines.
  rewrite (first_session_start_clean json_loads fromisoformat before after line ev None
             Hbefore Hline Hstart).
  reflexivity.
Qed.

(** The first fragment of the examples starts at nine. *)
Lemma get_start_time_first_record_a :
  get_start_time Logs.json_loads Sample.fromisoformat Logs.two_fragments "session_a.jsonl"
  = mk_datetime 2024 1 1 9 0 0 0 (Some 0).
Proof.
  exact (get_start_time_first_record Logs.json_loads Sample.fromisoformat
           Logs.two_fragments "session_a.jsonl" Logs.a_text []
           (tl (splitlines Logs.a_text)) (hd "" (splitlines Logs.a_text)) Logs.a_start
           eq_refl ltac:(vm_compute; reflexivity) (Forall_nil _)
           ltac:(vm_compute; reflexivity) eq_refl).
Defined.

(** ** Writing and reading back *)

Lemma string_rev_cons (c : ascii) (s : string) :
  string_rev (String c s) = string_rev s ++ String c "".
Proof. unfold string_rev at 1. cbn [string_rev_onto]. apply string_rev_onto_spec. Qed.

(** A text without line feed, followed by one, is one line. *)
Lemma lines_from_line (cur s rest : string) :
  contains (String "010"%char "") s = false ->
  lines_from cur (s ++ String "010"%char rest)
  = (string_rev cur ++ s ++ String "010"%char "") :: lines_from "" rest.
Proof.
  revert cur. induction s as [|c s IH]; intros cur H.
  - cbn [String.append lines_from]. rewrite Ascii.eqb_refl.
    now rewrite string_rev_cons.
  - cbn [contains starts_with] in H. apply orb_false_iff in H as [Hc Hs].
    rewrite andb_true_r in Hc.
    cbn [String.append lines_from].
    rewrite Ascii.eqb_sym, Hc. rewrite (IH _ Hs), string_rev_cons.
    now rewrite append_associative.
Qed.

Lemma concat_empty_cons (x : string) (xs : list string) :
  String.concat "" (x :: xs) = x ++ String.concat "" xs.
Proof. destruct xs; cbn; [now rewrite append_empty_r | reflexivity]. Qed.

Lemma splitlines_output_text (json_dumps : json -> string) (records : list record) :
  Forall (fun r => contains (String "010"%char "") (json_dumps (JDict r)) = false) records ->
  splitlines (output_text json_dumps records) = map (output_line json_dumps) records.
Proof.
  unfold splitlines, output_text.
  induction 1 as [|r records Hr _ IH]; [reflexivity |].
  cbn [map]. rewrite concat_empty_cons. unfold output_line at 1.
  rewrite append_associative.
  change (String "010"%char "" ++ ?x) with (String "010"%char x).
  rewrite (lines_from_line "" _ _ Hr). cbn [string_rev string_rev_onto String.append].
  now rewrite IH.
Qed.

Lemma read_written_file
  (json_loads : string -> result json) (json_dumps : json -> string)
  (records : list record) (name : string) (w : world) :
  Forall (fun r =>
            contains (String "010"%char "") (json_dumps (JDict r)) = false
            /\ strip (output_line json_dumps r) <> ""
            /\ json_loads (strip (output_line json_dumps r)) = Ok (JDict r))
    records ->
  dir_lookup (logs w) name = Some (Text (output_text json_dumps records)) ->
  read_session_events json_loads name w = (Ok (map JDict records), w).
Proof.
  intros H Hfile. rewrite read_session_events_spec.
  unfold events_of, warning_of, read_lines. rewrite Hfile. cbn [fst snd].
  rewrite splitlines_output_text
    by (eapply Forall_impl; [| exact H]; intros r Hr; apply Hr).
  assert (Hread : events_from json_loads (map (output_line json_dumps) records)
                  = map JDict records
                  /\ failure_from json_loads (map (output_line json_dumps) records) None
                     = None).
  { clear Hfile. induction H as [|r records (_ & Hne & Hload) _ [IHe IHf]]; [now split |].
    cbn [map events_from failure_from]. unfold parse_line. rewrite Hload.
    destruct (String.eqb_spec (strip (output_line json_dumps r)) ""); [contradiction |].
    rewrite IHe, IHf. now split. }
  destruct Hread as [-> ->]. rewrite app_nil_r.
  now destruct w.
Qed.

(** X16.  What the writer writes (lines 176 to 181) the reader reads back
    (lines 61 to 74): where [json.dumps] puts a record on one line that is
    not blank and [json.loads] reads that line back as the record, the
    file written for a list of records yields, through
    [read_session_events], those records in their order, without a
    warning. *)
Theorem write_then_read
  (json_loads : string -> result json) (json_dumps : json -> string)
  (records : list record) (name : string) (w : world) :
  Forall (fun r =>
            contains (String "010"%char "") (json_dumps (JDict r)) = false
            /\ strip (output_line json_dumps r) <> ""
            /\ json_loads (strip (output_line json_dumps r)) = Ok (JDict r))
    records ->
  let written := snd (write_lines Disk_ok name (map (output_line json_dumps) records) w) in
  read_session_events json_loads name written = (Ok (map JDict records), written).
Proof.
  intros H written.
  apply (read_written_file json_loads json_dumps records name written H).
  apply dir_lookup_put_same.
Qed.

(** Two messages of the examples, written and read back. *)
Lemma write_then_read_messages :
  let written :=
    snd (write_lines Disk_ok "session_x.jsonl"
           (map (output_line Sample.dumps) [Logs.a_user; Logs.b_user]) (mk_world [] [])) in
  read_session_events Logs.json_loads "session_x.jsonl" written
  = (Ok [JDict Logs.a_user; JDict Logs.b_user], written).
Proof.
  apply (write_then_read Logs.json_loads Sample.dumps [Logs.a_user; Logs.b_user]
           "session_x.jsonl" (mk_world [] [])).
  repeat constructor; try (vm_compute; reflexivity); vm_compute; discriminate.
Defined.

(** ** The command line *)


(** ** init.py *)

(** X18.  [check_python_version] of init.py (lines 12 to 16) stops the
    script with status 1 exactly for the versions before 3.7: a major
    version below 3, or major version 3 with a minor version below 7; the
    micro version plays no part. *)
Theorem check_python_version_threshold (major minor : Z) (rest : list Z) :
  fst (check_python_version (major :: minor :: rest)) = Exits 1
  <-> major < 3 \/ (major = 3 /\ minor < 7).
Proof.
  unfold check_python_version. cbn [tuple_lt].
  destruct (Z.ltb_spec major 3); [cbn; split; [intros _; lia | reflexivity] |].
  destruct (Z.ltb_spec 3 major); [cbn; split; [discriminate | lia] |].
  destruct (Z.ltb_spec minor 7); [cbn; split; [intros _; lia | reflexivity] |].
  destruct (Z.ltb_spec 7 minor); [cbn; split; [discriminate | lia] |].
  destruct rest; cbn; (split; [discriminate | lia]).
Qed.

(** X19.  [main] of init.py (lines 28 to 35) announces the setup as
    complete and returns exactly when the version is 3.7 or later and git
    ran with return code 0; in every other case it leaves with status 1
    and does not announce it.  With a version before 3.7 the outcome is
    the same whatever git does. *)
Theorem init_main_outcome (system : string) (major minor : Z) (rest : list Z)
  (git : subprocess) :
  let run := init_main system (major :: minor :: rest) git in
  let recent := (3 <? major) || ((major =? 3) && (7 <=? minor)) in
  (fst run = Returns <-> recent = true /\ git = Completed 0)
  /\ (fst run = Returns \/ fst run = Exits 1)
  /\ (In Setup_complete (snd run) <-> fst run = Returns)
  /\ (recent = false ->
      forall git', init_main system (major :: minor :: rest) git' = run).
Proof.
  cbn zeta. unfold init_main, check_python_version. cbn [tuple_lt].
  destruct rest;
  destruct (Z.ltb_spec major 3), (Z.ltb_spec 3 major), (Z.eqb_spec major 3),
           (Z.ltb_spec minor 7), (Z.ltb_spec 7 minor), (Z.leb_spec 7 minor);
    try lia; cbn [orb andb fst snd];
    try (destruct git as [[| |]|]; cbn;
         repeat split; try tauto; try discriminate; try intuition discriminate;
         try (intros; intuition (try discriminate; try congruence))).
Qed.
